(** * fct-miner: the adaptive mining controller and the stuck-transaction
    canceller, embedded from [config.ts] (which holds the mining script) and
    [cancel-range.ts], with the dashboard of [mining-dashboard.ts] and the
    swap quote of [facet-swapper.ts].

    Conventions of the embedding.
    - A JavaScript [bigint] is a [Z]; [/] on bigints truncates toward zero
      and is [Z.quot].
    - In the estimator, the controller and the dashboard a JavaScript
      [number] is an exact rational [Q]: products, quotients and
      comparisons are the exact ones, the rounding of binary64 arithmetic
      is not modelled, and [Math.floor] and [Math.round] have their
      decimal meaning.
    - Where a result turns on that rounding (the spend-all buffer of the
      earlier copy of the script, the fees of the canceller) a [number]
      is a binary64 value, [Number.number], computed with the Standard
      Library's [SpecFloat].
    - Chain reads, the SDK's gas formula, the RPC answers and the
      library's [parseGwei] are inputs of the functions that use them. *)

From Stdlib Require Import ZArith QArith Qround Lqa Lia.
From Stdlib Require Import List Bool String Ascii Strings.Byte Sorted.
From Stdlib Require SpecFloat.
Import ListNotations.

Open Scope Z_scope.

(** ** JavaScript numbers *)

Module JS.

(** [a < b] on numbers. *)
Definition ltb (a b : Q) : bool := negb (Qle_bool b a).

(** [a <= b] on numbers. *)
Definition leb (a b : Q) : bool := Qle_bool a b.

(** [Math.max(a, b)]. *)
Definition max (a b : Q) : Q := if Qle_bool a b then b else a.

(** [Math.floor(x)], as an integer. *)
Definition floor (x : Q) : Z := Qfloor x.

(** [Number(x)] for a bigint [x]. *)
Definition ofBigInt (x : Z) : Q := inject_Z x.

(** [formatEther(x)] read back with [Number]: wei to ether. *)
Definition etherOf (x : Z) : Q := inject_Z x / inject_Z (10 ^ 18).

End JS.

(** ** JavaScript numbers as binary64 values *)

Module Number.

Import SpecFloat.

Definition number : Type := spec_float.

Definition prec : Z := 53.
Definition emax : Z := 1024.

Definition NaN : number := S754_nan.

(** [Number(x)] for a bigint [x], and an integer literal. *)
Definition ofBigInt (x : Z) : number := binary_normalize prec emax x 0 false.

(** The number nearest to [num / den]: a decimal literal, or [Number]
    of a decimal string. *)
Definition ofRatio (num : Z) (den : positive) : number :=
  match num with
  | Z0 => S754_zero false
  | Zpos n => SFdiv prec emax (S754_finite false n 0) (S754_finite false den 0)
  | Zneg n => SFdiv prec emax (S754_finite true n 0) (S754_finite false den 0)
  end.

(** [a * b]. *)
Definition mul (a b : number) : number := SFmul prec emax a b.

(** [a <= b]: false when either is [NaN]. *)
Definition leb (a b : number) : bool := SFleb a b.

Definition isNaN (x : number) : bool :=
  match x with
  | S754_nan => true
  | _ => false
  end.

(** [Math.max(a, b)]. *)
Definition max (a b : number) : number :=
  match SFcompare a b with
  | Some Lt => b
  | Some Gt => a
  | Some Eq => match a with S754_zero true => b | _ => a end
  | None => NaN
  end.

(** [BigInt(Math.floor(x))]; [None] where [BigInt] throws a
    [RangeError] ([NaN] and the infinities). *)
Definition floor (x : number) : option Z :=
  match x with
  | S754_zero _ => Some 0
  | S754_finite s m e =>
      let v := if s then Zneg m else Zpos m in
      Some (if 0 <=? e then v * 2 ^ e else v / 2 ^ (- e))
  | _ => None
  end.

(** The magnitude [m * 2^e] of a finite number, exactly. *)
Definition magnitude (m : positive) (e : Z) : Q :=
  if 0 <=? e then inject_Z (Zpos m * 2 ^ e)
  else Qmake (Zpos m) (Z.to_pos (2 ^ (- e))).

(** [Number(x.toFixed(6))]: the integer [n] with [n / 10^6] nearest to
    the magnitude of [x], the larger one on a tie, then the number
    nearest to that decimal, with the sign of [x]; from 10^21 on, and for
    [NaN] and the infinities, [toFixed] prints the number itself. *)
Definition toFixed6 (x : number) : number :=
  match x with
  | S754_finite s m e =>
      let q := magnitude m e in
      if Qle_bool (inject_Z (10 ^ 21)) q then x
      else
        match Qfloor (q * inject_Z (10 ^ 6) + (1 # 2)) with
        | Zpos n => SFdiv prec emax (S754_finite s n 0) (S754_finite false 1000000 0)
        | _ => S754_zero s
        end
  | S754_zero _ => S754_zero false
  | _ => x
  end.

End Number.

(** ** The mining script *)

Module Miner.

Definition overheadBytes : Z := 160.
Definition baseExecutionGas : Z := 21000.
Definition AUTO_SIZE_STEP_KB : Z := 25.

(** The loop of [createMineBoostData] from index [i] on, with [left]
    bytes to write: [data[i] = patternBytes[i % patternBytes.length]]. *)
Fixpoint fillPattern (patternBytes : list byte) (left : nat) (i : Z) : list byte :=
  match left with
  | O => []
  | S left' =>
      nth (Z.to_nat (i mod Z.of_nat (List.length patternBytes))) patternBytes x00
      :: fillPattern patternBytes left' (i + 1)
  end.

(** [createMineBoostData]: [sizeInBytes] bytes repeating "FACETMINE". *)
Definition createMineBoostData (sizeInBytes : Z) : list byte :=
  fillPattern (list_byte_of_string "FACETMINE") (Z.to_nat sizeInBytes) 0.

(** [new Uint8Array(n).fill(70)]. *)
Definition filled70 (n : Z) : list byte := repeat x46 (Z.to_nat n).

(** [calculateDataGas]: 10 gas per zero byte, 40 per non-zero byte. *)
Fixpoint countBytes (data : list byte) (zeroBytes nonZeroBytes : Z) : Z * Z :=
  match data with
  | [] => (zeroBytes, nonZeroBytes)
  | b :: rest =>
      if Byte.eqb b x00
      then countBytes rest (zeroBytes + 1) nonZeroBytes
      else countBytes rest zeroBytes (nonZeroBytes + 1)
  end.

Definition calculateDataGas (data : list byte) : Z :=
  let '(zeroBytes, nonZeroBytes) := countBytes data 0 0 in
  zeroBytes * 10 + nonZeroBytes * 40.

(** What one [getBlock] / [getFctMintRate] pair of reads returns. *)
Record ChainView : Type := {
  baseFeePerGas : option Z;   (* absent on a block without a base fee *)
  fctMintRate : Z
}.

(** [currentBlock.baseFeePerGas || 0n]. *)
Definition baseFeeOf (v : ChainView) : Z :=
  match baseFeePerGas v with
  | Some fee => fee
  | None => 0
  end.

(** The value [getEstimatesForSizeKb] returns. *)
Record Estimates : Type := {
  sizeBytes : Z;
  estimatedEthBurn : Z;
  fctMintAmount : Z;
  ethPerFct : Z;
  costPerFctUsd : Q;
  efficiencyPercent : Q;
  baseFee : Z;
  adjustedBaseFee : Z
}.

(** [SizeEstimate]: the estimates together with the candidate's [kb]. *)
Record SizeEstimate : Type := {
  est :> Estimates;
  kb : Z
}.

(** The options of [pickBestSizeAndEstimates]. *)
Record RankOpts : Type := {
  maxCostPerFctUsd : option Q;
  minEfficiencyPercent : option Q;
  minKb : option Z;
  maxKb : option Z
}.

Section Estimator.

(** The SDK's [calculateInputGasCost] (package [@0xfacet/sdk]). *)
Variable calculateInputGasCost : list byte -> Z.

(** [Number(process.env.GAS_PRICE_MULTIPLIER) || 1.5]. *)
Variable gasPriceMultiplier : Q.

(** [BigInt(Math.floor(Number(baseFee) * gasPriceMultiplier))]. *)
Definition adjustBaseFee (fee : Z) : Z :=
  JS.floor (JS.ofBigInt fee * gasPriceMultiplier).

(** [customKb] of [getEstimatesForSizeKb]. *)
Definition clampKb (k : Q) : Z := Z.min (Z.max (JS.floor k) 1) 100.

(** [estimatedInputCostGas] of [getEstimatesForSizeKb] for a payload of
    [customSize] bytes. *)
Definition estimatedInputCostGas (customSize : Z) : Z :=
  calculateInputGasCost (filled70 (customSize - overheadBytes)) + baseExecutionGas.

Definition getEstimatesForSizeKb (view : ChainView) (k : Q) (ethPriceUsd : Q)
  : Estimates :=
  let customKb := clampKb k in
  let customSize := customKb * 1024 in
  let fee := baseFeeOf view in
  let adjusted := adjustBaseFee fee in
  let gas := estimatedInputCostGas customSize in
  let burn := gas * adjusted in
  let inputCostWei := (gas - baseExecutionGas) * fee in
  let minted := inputCostWei * fctMintRate view in
  let perFct := if 0 <? minted then Z.quot (burn * 10 ^ 18) minted else 0 in
  {| sizeBytes := customSize;
     estimatedEthBurn := burn;
     fctMintAmount := minted;
     ethPerFct := perFct;
     costPerFctUsd := Qred (JS.etherOf perFct * ethPriceUsd);
     efficiencyPercent :=
       Qred (JS.ofBigInt (gas - baseExecutionGas) / JS.ofBigInt gas * inject_Z 100);
     baseFee := fee;
     adjustedBaseFee := adjusted |}.

(** [estimateTransactionCost], on the base fee its [getBlock] read. *)
Definition estimateTransactionCost (dataSize : Z) (view : ChainView) : Z :=
  let mineBoostSize := dataSize - overheadBytes in
  let mineBoostData := createMineBoostData mineBoostSize in
  let adjusted := adjustBaseFee (baseFeeOf view) in
  (calculateInputGasCost mineBoostData + baseExecutionGas) * adjusted.

(** *** Size candidate ranker *)

(** [AUTO_MIN_SIZE_KB] and [AUTO_MAX_SIZE_KB], read from the environment. *)
Variables AUTO_MIN_SIZE_KB AUTO_MAX_SIZE_KB : Z.

(** The [candidates] array: [minKb], [minKb + 25], ... up to [maxKb]. *)
Definition candidateSizes (opts : RankOpts) : list Z :=
  let lo := Z.max AUTO_MIN_SIZE_KB
              (match minKb opts with Some v => v | None => AUTO_MIN_SIZE_KB end) in
  let hi := Z.min AUTO_MAX_SIZE_KB
              (match maxKb opts with Some v => v | None => AUTO_MAX_SIZE_KB end) in
  if hi <? lo then []
  else map (fun i => lo + AUTO_SIZE_STEP_KB * Z.of_nat i)
           (seq 0 (Z.to_nat ((hi - lo) / AUTO_SIZE_STEP_KB + 1))).

Definition meetsCost (opts : RankOpts) (e : Estimates) : bool :=
  match maxCostPerFctUsd opts with
  | None => true
  | Some ceiling => JS.leb (costPerFctUsd e) ceiling
  end.

Definition meetsEff (opts : RankOpts) (e : Estimates) : bool :=
  match minEfficiencyPercent opts with
  | None => true
  | Some floor => JS.leb floor (efficiencyPercent e)
  end.

(** The body of the [for (const kb of candidates)] loop, on the
    estimate [e] of the current candidate. *)
Definition rankStep (opts : RankOpts) (best : option SizeEstimate) (e : SizeEstimate)
  : option SizeEstimate :=
  if meetsCost opts e && meetsEff opts e then
    match best with
    | None => Some e
    | Some b => if JS.ltb (costPerFctUsd e) (costPerFctUsd b) then Some e else best
    end
  else
    match best with
    | None => Some e
    | Some b => if JS.ltb (costPerFctUsd e) (costPerFctUsd b) then Some e else best
    end.

Definition rank (opts : RankOpts) (ests : list SizeEstimate) : option SizeEstimate :=
  fold_left (rankStep opts) ests None.

(** The specification's contract for the ranker: when some candidate meets
    both constraints, the result meets both and is a cheapest such one. *)
Definition specRankerContract (opts : RankOpts) (ests : list SizeEstimate)
    (result : option SizeEstimate) : Prop :=
  (exists e, In e ests /\ meetsCost opts e && meetsEff opts e = true) ->
  exists r, result = Some r /\
            meetsCost opts r && meetsEff opts r = true /\
            forall e, In e ests -> meetsCost opts e && meetsEff opts e = true ->
                      (costPerFctUsd r <= costPerFctUsd e)%Q.

(** The estimates the loop sees: the [i]-th candidate is estimated on
    the chain view [chain i], as each call reads the chain anew. *)
Definition candidateEstimates (chain : nat -> ChainView) (ethPriceUsd : Q)
    (opts : RankOpts) : list SizeEstimate :=
  let candidates := candidateSizes opts in
  map (fun '(i, k) =>
         {| est := getEstimatesForSizeKb (chain i) (inject_Z k) ethPriceUsd;
            kb := k |})
      (combine (seq 0 (List.length candidates)) candidates).

Definition pickBestSizeAndEstimates (chain : nat -> ChainView) (ethPriceUsd : Q)
    (opts : RankOpts) : option SizeEstimate :=
  rank opts (candidateEstimates chain ethPriceUsd opts).

End Estimator.

(** *** Spend-cap planner (the "Determine spend cap" step of [main]) *)

Record SpendConfig : Type := {
  AUTO_SPEND_MODE : string;          (* lower-cased SPEND_MODE, "cap" by default *)
  AUTO_SPEND_CAP_ETH : option Q;
  AUTO_TARGET_TXS : option Z
}.

(** [balance > buffer ? balance - buffer : balance] with
    [buffer = balance / 100n]. *)
Definition spendAll (balance : Z) : Z :=
  let buffer := Z.quot balance 100 in
  if buffer <? balance then balance - buffer else balance.

(** [(est.estimatedEthBurn * 11n) / 10n]. *)
Definition withTenPercent (estimatedEthBurn : Z) : Z :=
  Z.quot (estimatedEthBurn * 11) 10.

(** The cap asked for in mode "cap", before the checks against the
    balance; [None] when neither an amount nor a count is configured. *)
Definition requestedCap (cfg : SpendConfig) (estimatedEthBurn : Z) : option Z :=
  let capEth := match AUTO_SPEND_CAP_ETH cfg with Some c => c | None => 0%Q end in
  if Qle_bool capEth 0 then
    match AUTO_TARGET_TXS cfg with
    | Some txs =>
        if 0 <? txs then Some (withTenPercent estimatedEthBurn * txs) else None
    | None => None
    end
  else Some (JS.floor (capEth * inject_Z (10 ^ 18))).

(** The spend cap [main] resolves; [None] when [main] returns before
    the mining loop. *)
Definition determineSpendCap (cfg : SpendConfig) (balance estimatedEthBurn : Z)
  : option Z :=
  if String.eqb (AUTO_SPEND_MODE cfg) "all" then Some (spendAll balance)
  else
    match requestedCap cfg estimatedEthBurn with
    | None => None
    | Some spendCap =>
        if balance <? spendCap then None
        else
          let minCap := withTenPercent estimatedEthBurn in
          if spendCap <? minCap then
            if balance <? minCap then Some (spendAll balance) else Some minCap
          else Some spendCap
    end.

(** The spend cap of the interactive [startMiningSession]: choice "1"
    spends all, choice "2" asks for an amount ([capFloat], [None] when it
    does not parse). *)
Definition sessionSpendCap (spendChoice : string) (capFloat : option Q) (balance : Z)
  : option Z :=
  if balance =? 0 then None
  else if String.eqb spendChoice "1" then Some (spendAll balance)
  else if String.eqb spendChoice "2" then
    match capFloat with
    | None => None
    | Some c =>
        if Qle_bool c 0 then None
        else
          let spendCap := JS.floor (c * inject_Z (10 ^ 18)) in
          if balance <? spendCap then None else Some spendCap
    end
  else None.

(** The same step in the earlier copy of the script: choice "1" takes
    [BigInt(Math.floor(Number(balance) * 0.01))] off the balance, without
    a guard; choice "2" is the one above, here on the number
    [parseFloat] returns. *)
Definition earlierSessionSpendCap (spendChoice : string) (capFloat : Number.number)
    (balance : Z) : option Z :=
  if balance =? 0 then None
  else if String.eqb spendChoice "1" then
    match Number.floor (Number.mul (Number.ofBigInt balance) (Number.ofRatio 1 100)) with
    | Some buffer => Some (balance - buffer)
    | None => None
    end
  else if String.eqb spendChoice "2" then
    if Number.isNaN capFloat || Number.leb capFloat (Number.ofBigInt 0) then None
    else
      match Number.floor (Number.mul capFloat (Number.ofBigInt (10 ^ 18))) with
      | Some spendCap => if balance <? spendCap then None else Some spendCap
      | None => None
      end
  else None.

(** *** Mining session loop *)

(** The dashboard's transaction statuses. *)
Inductive TxStatus : Type := preparing | submitting | confirming | completed | failed.

(** How one call of [mineFacetTransactionWithDashboard] ends.
    [getGasPrice] is awaited before the function's [try] block, so its
    rejection reaches the caller; every later error is caught inside
    and turned into [null]. *)
Inductive TxResponse : Type :=
  | GasPriceError               (* [getGasPrice] rejects: the call throws *)
  | SubmitError                 (* nonce read or broadcast fails: [null] *)
  | ConfirmError                (* receipt wait or later read fails: [null] *)
  | Confirmed (fctMinted : Z).  (* receipt obtained: a result object *)

(** What the session observes: the chain view of its [k]-th [getBlock]
    read and the fate of its [n]-th transaction. *)
Record World : Type := {
  views : nat -> ChainView;
  responses : nat -> TxResponse
}.

(** The chain reads and the dashboard calls of a session, in order. *)
Inductive Event : Type :=
  | ReadEstimate (read : nat) (cost : Z)
  | StartTransaction (ethCost : Z)
  | UpdateStatus (status : TxStatus)
  | CompleteTransaction (ethSpent fctMinted : Z).

(** The loop's variables, and the number of [getBlock] reads so far. *)
Record Session : Type := {
  totalSpent : Z;
  totalFctMinted : Z;
  transactionCount : nat;
  reads : nat
}.

Record Run : Type := {
  final : Session;
  trace : list Event;
  exited : bool               (* false: the loop was still running *)
}.

Definition stopped (s : Session) (evs : list Event) : Run :=
  {| final := s; trace := evs; exited := true |}.

Definition after (evs : list Event) (r : Run) : Run :=
  {| final := final r; trace := evs ++ trace r; exited := exited r |}.

Section Loop.

Variable calculateInputGasCost : list byte -> Z.
Variable gasPriceMultiplier : Q.
Variable STOP_ON_TX_FAIL : bool.
Variable w : World.
Variables (spendCap : Z) (dataSize : Z).

Let estimate (read : nat) : Z :=
  estimateTransactionCost calculateInputGasCost gasPriceMultiplier dataSize
    (views w read).

(** [fuel] iterations of [while (totalSpent < spendCap)] from the
    variables [s].  The earlier copy of the script has a plain [break] in
    the [catch] block, which is this loop with [STOP_ON_TX_FAIL] set. *)
Fixpoint miningLoopFrom (fuel : nat) (s : Session) : Run :=
  match fuel with
  | O => {| final := s; trace := []; exited := false |}
  | S fuel' =>
      if spendCap <=? totalSpent s then stopped s []
      else
        let n := S (transactionCount s) in
        let estimatedCost := estimate (reads s) in
        let s1 := {| totalSpent := totalSpent s;
                     totalFctMinted := totalFctMinted s;
                     transactionCount := n;
                     reads := S (reads s) |} in
        if spendCap <? totalSpent s + estimatedCost
        then stopped s1 [ReadEstimate (reads s) estimatedCost]
        else
          let begun := [ReadEstimate (reads s) estimatedCost;
                        StartTransaction estimatedCost] in
          match responses w n with
          | GasPriceError =>
              if STOP_ON_TX_FAIL
              then stopped s1 (begun ++ [UpdateStatus failed])
              else after (begun ++ [UpdateStatus failed]) (miningLoopFrom fuel' s1)
          | SubmitError =>
              stopped s1
                (begun ++ [UpdateStatus submitting;
                           UpdateStatus failed; UpdateStatus failed])
          | ConfirmError =>
              stopped s1
                (begun ++ [UpdateStatus submitting; UpdateStatus confirming;
                           UpdateStatus failed; UpdateStatus failed])
          | Confirmed minted =>
              let ethSpent := estimate (S (reads s)) in
              let s2 := {| totalSpent := totalSpent s + ethSpent;
                           totalFctMinted := totalFctMinted s + minted;
                           transactionCount := n;
                           reads := S (S (reads s)) |} in
              let done := begun ++ [UpdateStatus submitting;
                                    UpdateStatus confirming;
                                    ReadEstimate (S (reads s)) ethSpent;
                                    UpdateStatus completed;
                                    CompleteTransaction ethSpent minted] in
              if spendCap <? totalSpent s2 + estimatedCost
              then stopped s2 done
              else after done (miningLoopFrom fuel' s2)
          end
  end.

Definition miningLoop (fuel : nat) : Run :=
  miningLoopFrom fuel
    {| totalSpent := 0; totalFctMinted := 0; transactionCount := 0; reads := 0 |}.

End Loop.

(** [totalSpent] as the events account for it. *)
Fixpoint spentIn (evs : list Event) : Z :=
  match evs with
  | [] => 0
  | CompleteTransaction ethSpent _ :: rest => ethSpent + spentIn rest
  | _ :: rest => spentIn rest
  end.

(** Every chain read among [evs] has an index below [r]. *)
Definition readsBelow (r : nat) (evs : list Event) : Prop :=
  forall r' c, In (ReadEstimate r' c) evs -> (r' < r)%nat.

(** The cap the specification gives for mode "cap" with a target count:
    the buffered cost rounded up, times the count. *)
Definition specTargetCap (perTxEstimate targetCount : Z) : Z :=
  Qceiling (inject_Z perTxEstimate * (11 # 10)) * targetCount.

(** The cap the code resolves in that mode, when the balance covers it:
    the buffered cost rounded down, times the count. *)
Definition floorTargetCap (perTxEstimate targetCount : Z) : Z :=
  Qfloor (inject_Z perTxEstimate * (11 # 10)) * targetCount.

(** The specification's [SpendCap] invariant, with the exact factor 1.1. *)
Definition specCapInvariant (balance perTxEstimate cap : Z) : Prop :=
  0 <= cap <= balance /\
  ((inject_Z perTxEstimate * (11 # 10) <= inject_Z balance)%Q ->
   (inject_Z perTxEstimate * (11 # 10) <= inject_Z cap)%Q).

End Miner.

(** ** The stuck-transaction canceller ([cancel-range.ts]) *)

Module CancelRange.

Import Number.

(** The module-level [TIP] and [MAX], in gwei. *)
Record Fees : Type := {
  TIP : number;
  MAX : number
}.

(** [TIP] and [MAX] as the script initialises them; an argument is
    [Number] of the environment variable, [None] when the variable is
    unset or empty. *)
Definition initialFees (baseTipGwei baseMaxGwei : option number) : Fees :=
  let tip := match baseTipGwei with Some t => t | None => ofBigInt 30 end in
  {| TIP := tip;
     MAX := match baseMaxGwei with
            | Some m => m
            | None => Number.max (mul tip (ofBigInt 2)) (ofBigInt 60)
            end |}.

(** The error object caught by [cancelNonce]. *)
Record JsError : Type := {
  shortMessage : option string;
  message : option string
}.

(** [a || b] on optional strings: the empty string is falsy. *)
Definition orElse (a : option string) (b : string) : string :=
  match a with
  | Some s => if String.eqb s "" then b else s
  | None => b
  end.

(** [e?.shortMessage || e?.message]. *)
Definition errorText (e : JsError) : string :=
  orElse (shortMessage e) (orElse (message e) "").

Definition lowerAscii (c : ascii) : ascii :=
  let n := nat_of_ascii c in
  if ((65 <=? n) && (n <=? 90))%nat then ascii_of_nat (n + 32) else c.

(** [toLowerCase], on the ASCII letters. *)
Fixpoint toLowerCase (s : string) : string :=
  match s with
  | EmptyString => EmptyString
  | String c rest => String (lowerAscii c) (toLowerCase rest)
  end.

(** [s.includes(pat)]. *)
Fixpoint includes (s pat : string) : bool :=
  if String.prefix pat s then true
  else match s with
       | EmptyString => false
       | String _ rest => includes rest pat
       end.

(** The first test of the [catch] block, on the lower-cased message. *)
Definition saysResolved (msg : string) : bool :=
  includes msg "nonce too low" || includes msg "already known".

(** The second test of the [catch] block. *)
Definition saysUnderpriced (msg : string) : bool :=
  includes msg "underpriced" || includes msg "tip too low" || includes msg "base fee".

(** The fields of the replacement transaction that vary; the fees are
    the wei amounts [parseGwei] returns. *)
Record Transaction : Type := {
  nonce : Z;
  maxPriorityFeePerGas : Z;
  maxFeePerGas : Z
}.

(** The node's answer to a transaction handed to [sendTransaction]. *)
Inductive Response : Type :=
| Mined (status : string)       (* sent, and a receipt came back *)
| SendRejected (e : JsError)    (* [sendTransaction] throws *)
| WaitRejected (e : JsError).   (* sent, then the receipt wait throws *)

(** What [cancelNonce] and [main] do, in order. *)
Inductive Event : Type :=
| Send (attempt : nat) (tx : Transaction)   (* [sendTransaction] is called *)
| Result (status : string)
| AlreadyResolved (n : Z)
| Bumped (n : Z) (fees : Fees)
| Sleep (ms : Z)
| Failure (n : Z) (text : string)
| MaxRetries (n : Z)
| Skipped (n : Z).

Section Canceller.

(** The library's [parseGwei] on the numbers the script hands it: the
    wei amount, or the error it throws. *)
Variable parseGwei : number -> JsError + Z.

(** [BUMP_MULTIPLIER] and [DELAY_MS]. *)
Variable BUMP : number.
Variable DELAY : Z.

(** The node's answer to attempt [i] on nonce [n] with transaction [tx]. *)
Variable rpc : Z -> nat -> Transaction -> Response.

(** The two assignments of the "underpriced" branch. *)
Definition bump (fees : Fees) : Fees :=
  let tip := toFixed6 (mul (TIP fees) BUMP) in
  {| TIP := tip;
     MAX := toFixed6 (mul (Number.max (MAX fees) tip) BUMP) |}.

(** The argument of [sendTransaction] under [fees]: the object literal
    evaluates [parseGwei(TIP)], then [parseGwei(Math.max(MAX, TIP))]; an
    error either call throws is thrown inside the [try], before
    [sendTransaction] is called. *)
Definition replacement (n : Z) (fees : Fees) : JsError + Transaction :=
  match parseGwei (TIP fees) with
  | inl e => inl e
  | inr tip =>
      match parseGwei (Number.max (MAX fees) (TIP fees)) with
      | inl e => inl e
      | inr maxFee =>
          inr {| nonce := n; maxPriorityFeePerGas := tip; maxFeePerGas := maxFee |}
      end
  end.

(** The [catch] block on error [e]; [retry] is the rest of the loop,
    from the next attempt on. *)
Definition onError (n : Z) (fees : Fees) (e : JsError)
    (retry : Fees -> Fees * list Event) : Fees * list Event :=
  let msg := toLowerCase (errorText e) in
  if saysResolved msg
  then (fees, [AlreadyResolved n])
  else if saysUnderpriced msg
  then
    let fees' := bump fees in
    let '(last, evs) := retry fees' in
    (last, Bumped n fees' :: Sleep 500 :: evs)
  else (fees, [Failure n (errorText e)]).

(** [for (let i = ...; i <= 8; i++)] with [left] iterations to go. *)
Fixpoint attemptsFrom (left : nat) (i : nat) (n : Z) (fees : Fees)
  : Fees * list Event :=
  match left with
  | O => (fees, [MaxRetries n])
  | S left' =>
      match replacement n fees with
      | inl e => onError n fees e (attemptsFrom left' (S i) n)
      | inr tx =>
          match rpc n i tx with
          | Mined status => (fees, [Send i tx; Result status])
          | SendRejected e =>
              let '(last, evs) := onError n fees e (attemptsFrom left' (S i) n) in
              (last, Send i tx :: evs)
          | WaitRejected e =>
              let '(last, evs) := onError n fees e (attemptsFrom left' (S i) n) in
              (last, Send i tx :: evs)
          end
      end
  end.

Definition cancelNonce (n : Z) (fees : Fees) : Fees * list Event :=
  attemptsFrom 8 1 n fees.

(** The [for (let n = FROM; n <= TO; n++)] loop of [main] over the
    nonces it visits. *)
Fixpoint sweep (nonces : list Z) (latest : Z) (fees : Fees) : Fees * list Event :=
  match nonces with
  | [] => (fees, [])
  | n :: rest =>
      if n <? latest then
        let '(last, evs) := sweep rest latest fees in
        (last, Skipped n :: evs)
      else
        let '(fees1, evs1) := cancelNonce n fees in
        let '(last, evs2) := sweep rest latest fees1 in
        (last, evs1 ++ Sleep DELAY :: evs2)
  end.

(** [FROM], [FROM + 1], ..., [TO]. *)
Definition nonceRange (FROM TO : Z) : list Z :=
  map (fun k => FROM + Z.of_nat k) (seq 0 (Z.to_nat (TO - FROM + 1))).

Definition main (FROM TO latest : Z) (fees : Fees) : Fees * list Event :=
  sweep (nonceRange FROM TO) latest fees.


End Canceller.





End CancelRange.

(** ** The library call of the canceller *)

Module Viem.

Import CancelRange.

(** What a call of a method that a value does not have throws: here
    [value.split] on a number. *)
Definition typeError : JsError :=
  {| shortMessage := None; message := Some "value.split is not a function"%string |}.

(** viem's [parseGwei(value)] is [parseUnits(value, 9)], written for a
    decimal string: it takes the string apart with [value.split(".")].
    [cancel-range.ts] hands it [TIP] and [Math.max(MAX, TIP)], which are
    JavaScript numbers and have no [split] method, so on every number the
    call throws before anything is parsed. *)
Definition parseGwei (value : Number.number) : JsError + Z := inl typeError.

End Viem.

(** ** The interactive size menu ([selectMiningSize]) *)

Module Interactive.

Import Miner.

Record SizeOption : Type := {
  label : string;
  size : Z;
  optionKb : Z
}.

Definition sizeOptions : list SizeOption :=
  [ {| label := "Small"; size := 25 * 1024; optionKb := 25 |};
    {| label := "Medium"; size := 50 * 1024; optionKb := 50 |};
    {| label := "Large"; size := 75 * 1024; optionKb := 75 |};
    {| label := "XL"; size := 100 * 1024; optionKb := 100 |} ].

(** What [selectMiningSize] returns when it does not return [null]. *)
Record Selection : Type := {
  selectedSize : Z;
  estimatedCostPerTx : Z
}.

(** [parseInt(choice) - 1] for the choices "1" to "4". *)
Definition menuIndex (choice : string) : option nat :=
  if String.eqb choice "1" then Some 0%nat
  else if String.eqb choice "2" then Some 1%nat
  else if String.eqb choice "3" then Some 2%nat
  else if String.eqb choice "4" then Some 3%nat
  else None.

Section Select.

Variable calculateInputGasCost : list byte -> Z.
Variable gasPriceMultiplier : Q.

(** [estimatedEthBurn] of the menu for a payload of [bytes] bytes. *)
Definition menuCost (view : ChainView) (bytes : Z) : Z :=
  (calculateInputGasCost (filled70 (bytes - overheadBytes)) + baseExecutionGas)
  * adjustBaseFee gasPriceMultiplier (baseFeeOf view).

(** [selectMiningSize] on the block it reads, the menu choice and, for
    choice "5", the parsed custom size ([None] when [parseInt] gives
    [NaN]). *)
Definition selectMiningSize (view : ChainView) (choice : string)
    (customKb : option Z) : option Selection :=
  match menuIndex choice with
  | Some selectedIndex =>
      match nth_error sizeOptions selectedIndex with
      | Some selectedOption =>
          Some {| selectedSize := size selectedOption;
                  estimatedCostPerTx := menuCost view (size selectedOption) |}
      | None => None
      end
  | None =>
      if String.eqb choice "5" then
        match customKb with
        | None => None
        | Some k =>
            if (k <? 1) || (100 <? k) then None
            else
              let customSize := k * 1024 in
              Some {| selectedSize := customSize;
                      estimatedCostPerTx := menuCost view customSize |}
        end
      else None
  end.

End Select.

End Interactive.

(** ** The auto controller (the loop of [main]) *)

Module Controller.

Import Miner.

Record AutoConfig : Type := {
  AUTO_LOOP : bool;
  AUTO_SIZE_KB : Q;
  MAX_L1_GWEI : option Q;
  MAX_COST_PER_FCT_USD : option Q;
  MIN_EFFICIENCY_PERCENT : option Q;
  MIN_BALANCE_ETH : option Q;
  AUTO_DYNAMIC_SIZE : bool;
  AUTO_RELAX_AFTER_CYCLES : Z;
  AUTO_RELAX_STEP_PERCENT : Q;
  AUTO_MIN_SIZE_KB : Z;
  AUTO_MAX_SIZE_KB : Z;
  spend : SpendConfig
}.

(** What one cycle reads: the balance, the ETH price, the L1 gas price and
    the chain views of its estimator calls. *)
Record CycleReads : Type := {
  balance : Z;
  ethPriceUsd : Q;
  gasPrice : Z;
  chain : nat -> ChainView
}.

(** The gate that sends a cycle back to waiting. *)
Inductive Gate : Type :=
  | BalanceFloor | GasCeiling | NoEstimate | EfficiencyFloor | CostCeiling.

(** How one cycle ends. *)
Inductive CycleResult : Type :=
  | Gated (g : Gate)                   (* waits, or returns when not looping *)
  | NoSpendCap                         (* [main] returns at the spend cap *)
  | Mined (spendCap sizeBytes : Z).    (* [miningLoop] is run *)

(** [Number(formatGwei(x))]: wei to gwei. *)
Definition gweiOf (x : Z) : Q := inject_Z x / inject_Z (10 ^ 9).

(** [relaxFactor], once [waitCycles >= AUTO_RELAX_AFTER_CYCLES]. *)
Definition relaxFactor (cfg : AutoConfig) (waitCycles : Z) : option Q :=
  if AUTO_RELAX_AFTER_CYCLES cfg <=? waitCycles then
    let relaxSteps := waitCycles - AUTO_RELAX_AFTER_CYCLES cfg + 1 in
    Some (1 + inject_Z relaxSteps * AUTO_RELAX_STEP_PERCENT cfg / inject_Z 100)%Q
  else None.

(** A maximum-type threshold, relaxed. *)
Definition relaxMax (cfg : AutoConfig) (waitCycles : Z) (threshold : Q) : Q :=
  match relaxFactor cfg waitCycles with
  | Some factor => (threshold * factor)%Q
  | None => threshold
  end.

Definition effectiveMaxGwei (cfg : AutoConfig) (waitCycles : Z) : option Q :=
  option_map (relaxMax cfg waitCycles) (MAX_L1_GWEI cfg).

Definition effectiveMaxCost (cfg : AutoConfig) (waitCycles : Z) : option Q :=
  option_map (relaxMax cfg waitCycles) (MAX_COST_PER_FCT_USD cfg).

(** [Math.max(0, effectiveMinEff / relaxFactor)]. *)
Definition effectiveMinEff (cfg : AutoConfig) (waitCycles : Z) : option Q :=
  option_map
    (fun threshold =>
       match relaxFactor cfg waitCycles with
       | Some factor => JS.max 0 (threshold / factor)
       | None => threshold
       end)
    (MIN_EFFICIENCY_PERCENT cfg).

(** The constraints handed to the ranker and enforced again after it. *)
Definition relaxedOpts (cfg : AutoConfig) (waitCycles : Z) : RankOpts :=
  {| maxCostPerFctUsd := effectiveMaxCost cfg waitCycles;
     minEfficiencyPercent := effectiveMinEff cfg waitCycles;
     minKb := None;
     maxKb := None |}.

Section Cycle.

Variable calculateInputGasCost : list byte -> Z.
Variable gasPriceMultiplier : Q.
Variable cfg : AutoConfig.

(** The estimate of a cycle: the ranker's pick, or the estimate of
    [AUTO_SIZE_KB] when the size is fixed. *)
Definition cycleEstimate (waitCycles : Z) (o : CycleReads) : option Estimates :=
  if AUTO_DYNAMIC_SIZE cfg then
    option_map est
      (pickBestSizeAndEstimates calculateInputGasCost gasPriceMultiplier
         (AUTO_MIN_SIZE_KB cfg) (AUTO_MAX_SIZE_KB cfg)
         (chain o) (ethPriceUsd o) (relaxedOpts cfg waitCycles))
  else
    Some (getEstimatesForSizeKb calculateInputGasCost gasPriceMultiplier
            (chain o 0%nat) (AUTO_SIZE_KB cfg) (ethPriceUsd o)).

(** One pass through the body of [while (true)]. *)
Definition cycle (waitCycles : Z) (o : CycleReads) : CycleResult :=
  let balanceEth := JS.etherOf (balance o) in
  if match MIN_BALANCE_ETH cfg with
     | Some floor => JS.ltb balanceEth floor
     | None => false
     end
  then Gated BalanceFloor
  else if match effectiveMaxGwei cfg waitCycles with
          | Some ceiling => JS.ltb ceiling (gweiOf (gasPrice o))
          | None => false
          end
  then Gated GasCeiling
  else
    match cycleEstimate waitCycles o with
    | None => Gated NoEstimate
    | Some e =>
        if match effectiveMinEff cfg waitCycles with
           | Some floor => JS.ltb (efficiencyPercent e) floor
           | None => false
           end
        then Gated EfficiencyFloor
        else if match effectiveMaxCost cfg waitCycles with
                | Some ceiling => JS.ltb ceiling (costPerFctUsd e)
                | None => false
                end
        then Gated CostCeiling
        else
          match determineSpendCap (spend cfg) (balance o) (estimatedEthBurn e) with
          | None => NoSpendCap
          | Some spendCap => Mined spendCap (sizeBytes e)
          end
    end.

(** [fuel] cycles of the controller from cycle number [k]; each entry is
    the [waitCycles] the cycle ran with and how it ended. *)
Fixpoint controller (reads : nat -> CycleReads) (fuel : nat) (k : nat)
    (waitCycles : Z) : list (Z * CycleResult) :=
  match fuel with
  | O => []
  | S fuel' =>
      let r := cycle waitCycles (reads k) in
      (waitCycles, r)
      :: match r with
         | Gated _ =>
             if AUTO_LOOP cfg then controller reads fuel' (S k) (waitCycles + 1)
             else []
         | NoSpendCap => []
         | Mined _ _ =>
             if AUTO_LOOP cfg then controller reads fuel' (S k) 0 else []
         end
  end.

End Cycle.

End Controller.

(** ** The dashboard ([mining-dashboard.ts]) *)

Module Dashboard.

Import Miner.

(** The fields of [MiningStats] that do not depend on the clock. *)
Record MiningStats : Type := {
  totalTransactions : Z;
  totalETHSpent : Z;
  totalFCTMinted : Z;
  remainingBudget : Z;
  sessionTarget : Z;
  currentBalance : Z;
  ethPrice : Q;
  avgCostPerFCT : Q
}.

Record TransactionProgress : Type := {
  current : Z;
  total : option Z;            (* [None]: the quotient is not finite *)
  status : TxStatus;
  ethCost : Z;
  fctMinted : Z;
  hash : option string
}.

(** The fields the script passes to [updateTransaction]. *)
Record Update : Type := {
  newStatus : option TxStatus;
  newFctMinted : option Z;
  newHash : option string
}.

Record State : Type := {
  stats : MiningStats;
  currentTx : option TransactionProgress
}.

(** The constructor, on the fields [miningLoop] passes. *)
Definition create (target balance : Z) (price : Q) : State :=
  {| stats := {| totalTransactions := 0; totalETHSpent := 0; totalFCTMinted := 0;
                 remainingBudget := target; sessionTarget := target;
                 currentBalance := balance; ethPrice := price;
                 avgCostPerFCT := 0 |};
     currentTx := None |}.

(** The clock-free part of [calculateDerivedStats]. *)
Definition calculateDerivedStats (st : MiningStats) : MiningStats :=
  if 0 <? totalFCTMinted st then
    let totalSpentUSD := (JS.etherOf (totalETHSpent st) * ethPrice st)%Q in
    {| totalTransactions := totalTransactions st;
       totalETHSpent := totalETHSpent st;
       totalFCTMinted := totalFCTMinted st;
       remainingBudget := remainingBudget st;
       sessionTarget := sessionTarget st;
       currentBalance := currentBalance st;
       ethPrice := ethPrice st;
       avgCostPerFCT := Qred (totalSpentUSD / JS.etherOf (totalFCTMinted st)) |}
  else st.

Definition startTransaction (txStatus : TxStatus) (cost minted : Z) (d : State) : State :=
  {| stats := stats d;
     currentTx :=
       Some {| current := totalTransactions (stats d) + 1;
               total := if cost =? 0 then None
                        else Some (Qceiling (inject_Z (sessionTarget (stats d))
                                             / inject_Z cost));
               status := txStatus;
               ethCost := cost;
               fctMinted := minted;
               hash := None |} |}.

Definition updateTransaction (u : Update) (d : State) : State :=
  match currentTx d with
  | None => d
  | Some tx =>
      {| stats := stats d;
         currentTx :=
           Some {| current := current tx;
                   total := total tx;
                   status := match newStatus u with Some v => v | None => status tx end;
                   ethCost := ethCost tx;
                   fctMinted := match newFctMinted u with
                                | Some v => v
                                | None => fctMinted tx
                                end;
                   hash := match newHash u with Some v => Some v | None => hash tx end |} |}
  end.

Definition completeTransaction (ethSpent minted : Z) (d : State) : State :=
  let st := stats d in
  {| stats := calculateDerivedStats
                {| totalTransactions := totalTransactions st + 1;
                   totalETHSpent := totalETHSpent st + ethSpent;
                   totalFCTMinted := totalFCTMinted st + minted;
                   remainingBudget := remainingBudget st - ethSpent;
                   sessionTarget := sessionTarget st;
                   currentBalance := currentBalance st - ethSpent;
                   ethPrice := ethPrice st;
                   avgCostPerFCT := avgCostPerFCT st |};
     currentTx := None |}.

(** [Math.round(x)]. *)
Definition round (x : Q) : Z := Qfloor (x + (1 # 2)).

(** The bar of [renderProgress]: the numbers of filled and empty cells
    and the percentage shown. *)
Definition renderProgress (st : MiningStats) : Z * Z * Z :=
  let progressWidth := 60 in
  let spent := JS.etherOf (totalETHSpent st) in
  let target := JS.etherOf (sessionTarget st) in
  let progress :=
    if JS.ltb 0 target
    then (if Qle_bool 1 (spent / target) then 1%Q else (spent / target)%Q)
    else 0%Q in
  let filled := round (progress * inject_Z progressWidth) in
  let empty := progressWidth - filled in
  (filled, empty, round (progress * inject_Z 100)).

(** The dashboard call behind an event of the session loop; of an update
    the event keeps the status. *)
Definition drive (ev : Event) (d : State) : State :=
  match ev with
  | ReadEstimate _ _ => d
  | StartTransaction cost => startTransaction preparing cost 0 d
  | UpdateStatus st =>
      updateTransaction {| newStatus := Some st; newFctMinted := None;
                           newHash := None |} d
  | CompleteTransaction ethSpent minted => completeTransaction ethSpent minted d
  end.

Definition replay (evs : list Event) (d : State) : State :=
  fold_left (fun acc ev => drive ev acc) evs d.

End Dashboard.

(** ** The swap quote ([facet-swapper.ts]) *)

Module Swapper.

(** [calculatePriceImpact]; [None] where a bigint division by zero
    throws. *)
Definition calculatePriceImpact (amountIn reserveIn reserveOut : Z) : option (Z * Q) :=
  let amountInWithFee := amountIn * 997 in
  let numerator := amountInWithFee * reserveOut in
  let denominator := reserveIn * 1000 + amountInWithFee in
  if denominator =? 0 then None
  else
    let amountOut := Z.quot numerator denominator in
    if reserveOut =? 0 then None
    else
      let spotPrice := Z.quot (reserveIn * 10 ^ 18) reserveOut in
      if amountOut =? 0 then None
      else
        let executionPrice := Z.quot (amountIn * 10 ^ 18) amountOut in
        if spotPrice =? 0 then None
        else
          Some (amountOut,
                (JS.ofBigInt (Z.quot ((executionPrice - spotPrice) * 10000) spotPrice)
                 / inject_Z 100)%Q).

Record Quote : Type := {
  fctOut : Z;
  priceImpact : Q;
  effectivePrice : Z;
  spotPrice : Z
}.

(** What [getSwapQuote] finds around it: the network name that
    [getCurrentNetwork] returns, the pair of the network configuration,
    and the reserves [getReserves] returns ([None] when the read
    throws). *)
Record Pool : Type := {
  network : string;
  fctWethPair : option string;
  reserves : option (Z * Z)
}.

(** [isMainnet()]. *)
Definition isMainnet (p : Pool) : bool := String.eqb (network p) "mainnet".

(** [!networkConfig.fctWethPair]: the pair is undefined or empty. *)
Definition noPair (p : Pool) : bool :=
  match fctWethPair p with
  | Some address => String.eqb address ""
  | None => true
  end.

(** [getSwapQuote]: [null] off mainnet or without a pair; an error
    inside the [try] (a failed read, a division by zero) is caught and
    gives [null] too. *)
Definition getSwapQuote (p : Pool) (ethAmount : Z) : option Quote :=
  if negb (isMainnet p) || noPair p then None
  else
    match reserves p with
    | None => None
    | Some (wethReserve, fctReserve) =>
        match calculatePriceImpact ethAmount wethReserve fctReserve with
        | None => None
        | Some (amountOut, impact) =>
            Some {| fctOut := amountOut;
                    priceImpact := impact;
                    effectivePrice := Z.quot (ethAmount * 10 ^ 18) amountOut;
                    spotPrice := Z.quot (wethReserve * 10 ^ 18) fctReserve |}
        end
    end.

(** [minOutWithSlippage] of [executeSwap] and [amountOutMin] of
    [swapWethToWfct]. *)
Definition minOutWithSlippage (quoted slippageBps : Z) : Z :=
  Z.quot (quoted * (10000 - slippageBps)) 10000.

End Swapper.

(** ** Reading a session's trace *)

Module Totals.

Import Miner.

(** [totalFctMinted] as the events account for it. *)
Fixpoint mintedIn (evs : list Event) : Z :=
  match evs with
  | [] => 0
  | CompleteTransaction _ minted :: rest => minted + mintedIn rest
  | _ :: rest => mintedIn rest
  end.

(** The number of completed transactions among [evs]. *)
Fixpoint completedIn (evs : list Event) : Z :=
  match evs with
  | [] => 0
  | CompleteTransaction _ _ :: rest => 1 + completedIn rest
  | _ :: rest => completedIn rest
  end.

(** Every completed transaction among [evs] spent at most the cost
    announced when it was started; [cost] is the cost of the transaction
    under way, if any. *)
Fixpoint spentWithin (cost : option Z) (evs : list Event) : bool :=
  match evs with
  | [] => true
  | StartTransaction c :: rest => spentWithin (Some c) rest
  | CompleteTransaction ethSpent _ :: rest =>
      match cost with
      | Some c => (ethSpent <=? c) && spentWithin None rest
      | None => false
      end
  | _ :: rest => spentWithin cost rest
  end.

End Totals.

(** ** Concrete inputs used below *)

Module Scenario.

Import Miner.

(** No constraint configured. *)
Definition noConstraints : RankOpts :=
  {| maxCostPerFctUsd := None; minEfficiencyPercent := None;
     minKb := None; maxKb := None |}.

(** The chain as the ranker reads it when the mint rate halves after the
    first candidate has been estimated. *)
Definition rateDrop (i : nat) : ChainView :=
  match i with
  | O => {| baseFeePerGas := Some (10 ^ 10); fctMintRate := 100000 |}
  | S _ => {| baseFeePerGas := Some (10 ^ 10); fctMintRate := 50000 |}
  end.

(** A minimum efficiency of 98.5% and nothing else. *)
Definition efficiencyFloor : RankOpts :=
  {| maxCostPerFctUsd := None; minEfficiencyPercent := Some (985 # 10)%Q;
     minKb := None; maxKb := None |}.

(** The node's usual complaint about a replacement that pays too little. *)
Definition underpriced : CancelRange.JsError :=
  {| CancelRange.shortMessage := Some "Replacement transaction underpriced"%string;
     CancelRange.message := None |}.

(** Every attempt is refused as underpriced. *)
Definition alwaysUnderpriced (n : Z) (i : nat) (tx : CancelRange.Transaction)
  : CancelRange.Response :=
  CancelRange.SendRejected underpriced.


(** The script's defaults: a tip of 30 gwei and a max fee of 60 gwei. *)
Definition defaultFees : CancelRange.Fees := CancelRange.initialFees None None.

(** The default [BUMP_MULTIPLIER], 1.25. *)
Definition defaultBump : Number.number := Number.ofRatio 5 4.

(** A chain that does not move during the session. *)
Definition steadyView : ChainView :=
  {| baseFeePerGas := Some (10 ^ 10); fctMintRate := 100000 |}.

(** Every transaction is confirmed. *)
Definition allConfirmed : World :=
  {| views := fun _ => steadyView; responses := fun _ => Confirmed 1000 |}.

(** The broadcast of the first transaction is rejected. *)
Definition firstRejected : World :=
  {| views := fun _ => steadyView;
     responses := fun n => match n with
                           | 1%nat => SubmitError
                           | _ => Confirmed 1000
                           end |}.

(** The gas-price read of the first transaction fails. *)
Definition firstThrows : World :=
  {| views := fun _ => steadyView;
     responses := fun n => match n with
                           | 1%nat => GasPriceError
                           | _ => Confirmed 1000
                           end |}.

End Scenario.

(** ** Further inputs: a failing node, a controller configuration, a
    dashboard *)

Module Inputs.

Import Miner.

(** The gas-price read fails for every transaction. *)
Definition alwaysThrows : World :=
  {| views := fun _ => Scenario.steadyView; responses := fun _ => GasPriceError |}.

(** A looping controller with a fixed size of 1 KB, a gas ceiling of
    20 gwei, an efficiency floor of 50%, a balance floor of 0.01 ETH, and
    relaxation by 10% a cycle from the third waited cycle on; ten
    transactions a session. *)
Definition patientConfig : Controller.AutoConfig :=
  {| Controller.AUTO_LOOP := true;
     Controller.AUTO_SIZE_KB := 1;
     Controller.MAX_L1_GWEI := Some 20%Q;
     Controller.MAX_COST_PER_FCT_USD := None;
     Controller.MIN_EFFICIENCY_PERCENT := Some 50%Q;
     Controller.MIN_BALANCE_ETH := Some (1 # 100)%Q;
     Controller.AUTO_DYNAMIC_SIZE := false;
     Controller.AUTO_RELAX_AFTER_CYCLES := 3;
     Controller.AUTO_RELAX_STEP_PERCENT := 10;
     Controller.AUTO_MIN_SIZE_KB := 25;
     Controller.AUTO_MAX_SIZE_KB := 100;
     Controller.spend := {| AUTO_SPEND_MODE := "cap";
                            AUTO_SPEND_CAP_ETH := None;
                            AUTO_TARGET_TXS := Some 10 |} |}.

(** A cycle on a quiet chain: 1 ETH in the wallet, ETH at 3000 USD, L1 gas
    at 15 gwei. *)
Definition quietCycle : Controller.CycleReads :=
  {| Controller.balance := 10 ^ 18;
     Controller.ethPriceUsd := 3000;
     Controller.gasPrice := 15 * 10 ^ 9;
     Controller.chain := fun _ => Scenario.steadyView |}.

(** The same cycle with L1 gas at 50 gwei. *)
Definition busyCycle : Controller.CycleReads :=
  {| Controller.balance := 10 ^ 18;
     Controller.ethPriceUsd := 3000;
     Controller.gasPrice := 50 * 10 ^ 9;
     Controller.chain := fun _ => Scenario.steadyView |}.

(** The mainnet pool holding 100 WETH and 50000 FCT. *)
Definition mainnetPool : Swapper.Pool :=
  {| Swapper.network := "mainnet";
     Swapper.fctWethPair := Some "0x180eF813f5C3C00e37b002Dfe90035A8143CE233"%string;
     Swapper.reserves := Some (100 * 10 ^ 18, 50000 * 10 ^ 18) |}.

(** The testnet, which has no pair. *)
Definition sepoliaPool : Swapper.Pool :=
  {| Swapper.network := "sepolia";
     Swapper.fctWethPair := None;
     Swapper.reserves := None |}.

(** A dashboard half way through a session of 1 ETH. *)
Definition halfway : Dashboard.MiningStats :=
  {| Dashboard.totalTransactions := 8;
     Dashboard.totalETHSpent := 5 * 10 ^ 17;
     Dashboard.totalFCTMinted := 8000;
     Dashboard.remainingBudget := 5 * 10 ^ 17;
     Dashboard.sessionTarget := 10 ^ 18;
     Dashboard.currentBalance := 15 * 10 ^ 17;
     Dashboard.ethPrice := 3000;
     Dashboard.avgCostPerFCT := 0 |}.

End Inputs.

(** * Properties *)

(** ** Spend-cap planner *)

Section SpendCapFacts.

Import Miner.

Lemma spendAll_spec (balance : Z) :
  spendAll balance =
  if balance <=? Z.quot balance 100 then balance else balance - Z.quot balance 100.
Proof.
  unfold spendAll.
  destruct (Z.ltb_spec (Z.quot balance 100) balance) as [Hlt | Hge];
    destruct (Z.leb_spec balance (Z.quot balance 100)) as [Hle | Hgt];
    try reflexivity; lia.
Qed.

Lemma spendAll_bounds (balance : Z) :
  0 <= balance -> 0 <= spendAll balance <= balance.
Proof.
  intros Hb. unfold spendAll.
  rewrite Z.quot_div_nonneg by lia.
  destruct (Z.ltb_spec (balance / 100) balance) as [Hlt | Hge].
  - assert (0 <= balance / 100) by (apply Z.div_pos; lia). lia.
  - lia.
Qed.

Lemma withTenPercent_floor (e : Z) :
  0 <= e -> withTenPercent e = Qfloor (inject_Z e * (11 # 10)).
Proof.
  intros He. unfold withTenPercent.
  rewrite Z.quot_div_nonneg by lia.
  unfold Qfloor, Qmult, inject_Z. cbn [Qnum Qden Pos.mul].
  reflexivity.
Qed.

Lemma withTenPercent_nonneg (e : Z) : 0 <= e -> 0 <= withTenPercent e.
Proof.
  intros He. unfold withTenPercent.
  rewrite Z.quot_div_nonneg by lia. apply Z.div_pos; lia.
Qed.

(** In the later copy of the script, spend mode "all" gives
    [balance - balance / 100] with the truncating integer division, and
    [balance] itself when [balance <= balance / 100]; the auto controller
    and the interactive session resolve it alike, and a balance of 1 ETH
    gives a buffer of 0.01 ETH and a cap of 0.99 ETH. *)
Theorem spend_all_cap (balance : Z) :
  let buffer := Z.quot balance 100 in
  let cap := if balance <=? buffer then balance else balance - buffer in
  (forall cfg estimatedEthBurn,
      AUTO_SPEND_MODE cfg = "all"%string ->
      determineSpendCap cfg balance estimatedEthBurn = Some cap) /\
  (forall capFloat,
      balance <> 0 -> sessionSpendCap "1" capFloat balance = Some cap) /\
  Z.quot (10 ^ 18) 100 = 10 ^ 16 /\
  spendAll (10 ^ 18) = 99 * 10 ^ 16.
Proof.
  cbv zeta. repeat split.
  - intros cfg e Hmode. unfold determineSpendCap.
    rewrite Hmode, String.eqb_refl. now rewrite spendAll_spec.
  - intros capFloat Hnz. unfold sessionSpendCap.
    destruct (Z.eqb_spec balance 0) as [H0 | _]; [contradiction |].
    rewrite String.eqb_refl. now rewrite spendAll_spec.
Qed.

Lemma spend_all_cap_witness :
  determineSpendCap
    {| AUTO_SPEND_MODE := "all"; AUTO_SPEND_CAP_ETH := None; AUTO_TARGET_TXS := None |}
    (10 ^ 18) (2 * 10 ^ 16) = Some (99 * 10 ^ 16) /\
  sessionSpendCap "1" None (10 ^ 18) = Some (99 * 10 ^ 16).
Proof.
  destruct (spend_all_cap (10 ^ 18)) as (Hauto & Hsession & _ & _).
  split.
  - apply (Hauto _ (2 * 10 ^ 16)). reflexivity.
  - apply (Hsession None). discriminate.
Defined.

(** C4, on the code.  The earlier copy of the script computes the buffer
    of the interactive session as [Math.floor(Number(balance) * 0.01)],
    in binary64, and takes it off without a guard.  At a balance of
    1234567890123456789 wei the buffer is 12345678901234568 wei, one more
    than [balance / 100], and the cap is one wei below the one the later
    copy and the auto controller resolve. *)
Theorem earlier_session_buffer_is_rounded :
  let balance := 1234567890123456789 in
  earlierSessionSpendCap "1" Number.NaN balance = Some 1222222211222222221 /\
  sessionSpendCap "1" None balance = Some 1222222211222222222 /\
  balance - Z.quot balance 100 = 1222222211222222222 /\
  earlierSessionSpendCap "1" Number.NaN (10 ^ 18) = Some (99 * 10 ^ 16).
Proof.
  cbv zeta. split; [vm_compute; reflexivity |].
  split; [vm_compute; reflexivity |].
  split; vm_compute; reflexivity.
Qed.

Lemma requestedCap_target (cfg : SpendConfig) (e txs : Z) :
  match AUTO_SPEND_CAP_ETH cfg with Some c => (c <= 0)%Q | None => True end ->
  AUTO_TARGET_TXS cfg = Some txs -> 0 < txs ->
  requestedCap cfg e = Some (withTenPercent e * txs).
Proof.
  intros Hcap Htxs Hpos. unfold requestedCap. rewrite Htxs.
  assert (Hle : Qle_bool
                  match AUTO_SPEND_CAP_ETH cfg with Some c => c | None => 0%Q end 0
                = true).
  { destruct (AUTO_SPEND_CAP_ETH cfg) as [c |].
    - now apply Qle_bool_iff.
    - reflexivity. }
  rewrite Hle.
  destruct (Z.ltb_spec 0 txs); [reflexivity | lia].
Qed.

(** C5 (as amended). In spend mode "cap" with no amount configured and a
    positive target count, the cap is the per-transaction estimate plus
    10%, rounded down, times the count; the resolution is fatal when that
    exceeds the balance.  An estimate of 0.02 ETH with 5 transactions
    gives 0.11 ETH. *)
Theorem target_count_cap (cfg : SpendConfig) (balance perTxEstimate txs : Z) :
  AUTO_SPEND_MODE cfg <> "all"%string ->
  match AUTO_SPEND_CAP_ETH cfg with Some c => (c <= 0)%Q | None => True end ->
  AUTO_TARGET_TXS cfg = Some txs ->
  0 < txs ->
  0 <= perTxEstimate ->
  determineSpendCap cfg balance perTxEstimate =
    (if balance <? floorTargetCap perTxEstimate txs
     then None
     else Some (floorTargetCap perTxEstimate txs)) /\
  floorTargetCap (2 * 10 ^ 16) 5 = 11 * 10 ^ 16.
Proof.
  intros Hmode Hcap Htxs Hpos He. split; [| reflexivity].
  unfold determineSpendCap, floorTargetCap.
  destruct (String.eqb_spec (AUTO_SPEND_MODE cfg) "all") as [Hall | _];
    [contradiction |].
  rewrite (requestedCap_target cfg perTxEstimate txs Hcap Htxs Hpos).
  rewrite <- withTenPercent_floor by assumption.
  pose proof (withTenPercent_nonneg perTxEstimate He) as Hw.
  destruct (Z.ltb_spec balance (withTenPercent perTxEstimate * txs)) as [Hlt | Hge];
    [reflexivity |].
  destruct (Z.ltb_spec (withTenPercent perTxEstimate * txs)
                       (withTenPercent perTxEstimate)) as [Hraise | _];
    [nia | reflexivity].
Qed.

Lemma target_count_cap_witness :
  determineSpendCap
    {| AUTO_SPEND_MODE := "cap"; AUTO_SPEND_CAP_ETH := None; AUTO_TARGET_TXS := Some 5 |}
    (10 ^ 18) (2 * 10 ^ 16) = Some (11 * 10 ^ 16).
Proof.
  apply (target_count_cap
           {| AUTO_SPEND_MODE := "cap"; AUTO_SPEND_CAP_ETH := None;
              AUTO_TARGET_TXS := Some 5 |}
           (10 ^ 18) (2 * 10 ^ 16) 5).
  - discriminate.
  - exact I.
  - reflexivity.
  - reflexivity.
  - discriminate.
Defined.

(** C5 as stated fails: with an estimate of 123456789012345 wei and five
    transactions the code resolves 679012339567895 wei, five wei less
    than the rounded-up cap. *)
Lemma target_count_cap_not_rounded_up :
  determineSpendCap
    {| AUTO_SPEND_MODE := "cap"; AUTO_SPEND_CAP_ETH := None; AUTO_TARGET_TXS := Some 5 |}
    (10 ^ 18) 123456789012345
  <> Some (specTargetCap 123456789012345 5).
Proof. vm_compute. discriminate. Qed.

(** C3 (as amended). A resolved cap lies between 0 and the balance in
    every spend mode; in the two "cap" sub-modes, a balance that covers
    the estimate plus 10% (rounded down) yields a cap that covers it
    too. *)
Theorem spend_cap_invariant (cfg : SpendConfig) (balance perTxEstimate cap : Z) :
  0 <= balance ->
  0 <= perTxEstimate ->
  determineSpendCap cfg balance perTxEstimate = Some cap ->
  0 <= cap <= balance /\
  (AUTO_SPEND_MODE cfg <> "all"%string ->
   Qfloor (inject_Z perTxEstimate * (11 # 10)) <= balance ->
   Qfloor (inject_Z perTxEstimate * (11 # 10)) <= cap).
Proof.
  intros Hb He. rewrite <- withTenPercent_floor by assumption.
  pose proof (withTenPercent_nonneg perTxEstimate He) as Hw.
  pose proof (spendAll_bounds balance Hb) as Hall.
  unfold determineSpendCap.
  destruct (String.eqb_spec (AUTO_SPEND_MODE cfg) "all") as [Hmode | Hmode].
  - intros [= <-]. split; [exact Hall | congruence].
  - destruct (requestedCap cfg perTxEstimate) as [requested |] eqn:Hreq;
      [| discriminate].
    destruct (Z.ltb_spec balance requested) as [Hover | Hfit]; [discriminate |].
    destruct (Z.ltb_spec requested (withTenPercent perTxEstimate)) as [Hlow | Hok].
    + destruct (Z.ltb_spec balance (withTenPercent perTxEstimate)) as [Hshort | Hcov].
      * intros [= <-]. split; [exact Hall | lia].
      * intros [= <-]. split; lia.
    + intros [= <-]. split; lia.
Qed.

Lemma spend_cap_invariant_witness :
  0 <= 22 * 10 ^ 15 <= 10 ^ 18 /\
  Qfloor (inject_Z (2 * 10 ^ 16) * (11 # 10)) <= 22 * 10 ^ 15.
Proof.
  pose proof (spend_cap_invariant
                {| AUTO_SPEND_MODE := "cap"; AUTO_SPEND_CAP_ETH := Some (2 # 1000);
                   AUTO_TARGET_TXS := None |}
                (10 ^ 18) (2 * 10 ^ 16) (22 * 10 ^ 15)) as H.
  destruct H as [Hrange Hmin].
  - discriminate.
  - discriminate.
  - reflexivity.
  - split.
    + exact Hrange.
    + apply Hmin.
      * discriminate.
      * vm_compute. discriminate.
Defined.

(** C3 as stated fails in mode "all": a balance of 0.011 ETH covers the
    0.01 ETH estimate plus 10%, yet the cap is 0.01089 ETH. *)
Lemma spend_cap_invariant_fails_in_all_mode :
  determineSpendCap
    {| AUTO_SPEND_MODE := "all"; AUTO_SPEND_CAP_ETH := None; AUTO_TARGET_TXS := None |}
    (11 * 10 ^ 15) (10 ^ 16) = Some 10890000000000000 /\
  ~ specCapInvariant (11 * 10 ^ 15) (10 ^ 16) 10890000000000000.
Proof.
  split; [reflexivity |].
  intros [_ Hmin].
  assert (Hcov : (inject_Z (10 ^ 16) * (11 # 10) <= inject_Z (11 * 10 ^ 15))%Q)
    by (vm_compute; discriminate).
  specialize (Hmin Hcov). vm_compute in Hmin. apply Hmin. reflexivity.
Qed.

(** In mode "cap" the minimum is the rounded-down one: an explicit cap of
    5 wei is kept for an estimate of 5 wei, below the exact 5.5. *)
Example cap_mode_minimum_is_rounded_down :
  determineSpendCap
    {| AUTO_SPEND_MODE := "cap"; AUTO_SPEND_CAP_ETH := Some (5 # 1000000000000000000);
       AUTO_TARGET_TXS := None |}
    100 5 = Some 5 /\
  ~ specCapInvariant 100 5 5.
Proof.
  split; [reflexivity |].
  intros [_ Hmin].
  assert (Hcov : (inject_Z 5 * (11 # 10) <= inject_Z 100)%Q) by (vm_compute; discriminate).
  specialize (Hmin Hcov). vm_compute in Hmin. apply Hmin. reflexivity.
Qed.

End SpendCapFacts.

(** ** Cost estimator *)

Section NumberFacts.

Lemma ltb_lt (a b : Q) : JS.ltb a b = true <-> (a < b)%Q.
Proof.
  unfold JS.ltb. rewrite negb_true_iff.
  split.
  - intros Hf. apply Qnot_le_lt. intros Hle.
    apply Qle_bool_iff in Hle. congruence.
  - intros Hlt. destruct (Qle_bool b a) eqn:Hle; [| reflexivity].
    apply Qle_bool_iff in Hle. exfalso. exact (Qlt_not_le _ _ Hlt Hle).
Qed.

Lemma leb_le (a b : Q) : JS.leb a b = true <-> (a <= b)%Q.
Proof. apply Qle_bool_iff. Qed.

(** A quotient of integers with a positive divisor, as a fraction. *)
Lemma ratio_make (a : Z) (p : positive) :
  (inject_Z a / inject_Z (Zpos p) == a # p)%Q.
Proof. symmetry. apply Qmake_Qdiv. Qed.

Lemma ratio_lt (a b c d : Z) :
  0 < b -> 0 < d -> a * d < c * b ->
  (inject_Z a / inject_Z b < inject_Z c / inject_Z d)%Q.
Proof.
  intros Hb Hd Hlt.
  destruct b as [| p | p]; try lia. destruct d as [| q | q]; try lia.
  rewrite !ratio_make. unfold Qlt. cbn [Qnum Qden]. exact Hlt.
Qed.

Lemma ratio_range (a b : Z) :
  0 <= a < b -> (0 <= inject_Z a / inject_Z b < 1)%Q.
Proof.
  intros [Ha Hab].
  destruct b as [| p | p]; try lia.
  rewrite ratio_make. unfold Qle, Qlt. cbn [Qnum Qden]. lia.
Qed.

End NumberFacts.

Section EstimatorFacts.

Import Miner.

Variable calculateInputGasCost : list byte -> Z.
Variable gasPriceMultiplier : Q.

(** What the estimator needs of the SDK's gas formula on the payloads it
    builds: the cost is not negative and grows with the length. *)
Hypothesis gas_nonneg :
  forall n, 0 <= calculateInputGasCost (filled70 n).
Hypothesis gas_increasing :
  forall m n, 0 <= m < n ->
    calculateInputGasCost (filled70 m) < calculateInputGasCost (filled70 n).

Let estimates := getEstimatesForSizeKb calculateInputGasCost gasPriceMultiplier.
Let gasOf := estimatedInputCostGas calculateInputGasCost.

Lemma clampKb_range (k : Q) : 1 <= clampKb k <= 100.
Proof. unfold clampKb. lia. Qed.

(** The estimator never sees a size within the overhead. *)
Lemma sizeBytes_above_overhead (view : ChainView) (k price : Q) :
  overheadBytes < sizeBytes (estimates view k price).
Proof.
  unfold estimates, getEstimatesForSizeKb, overheadBytes. cbn [sizeBytes].
  pose proof (clampKb_range k). lia.
Qed.

Lemma efficiency_formula (view : ChainView) (k price : Q) :
  let e := estimates view k price in
  (efficiencyPercent e ==
   inject_Z (gasOf (sizeBytes e) - baseExecutionGas) / inject_Z (gasOf (sizeBytes e))
   * inject_Z 100)%Q.
Proof.
  cbv zeta. unfold estimates, getEstimatesForSizeKb.
  cbn [efficiencyPercent sizeBytes]. rewrite Qred_correct. reflexivity.
Qed.

(** C9. For a payload above the overhead, the efficiency is
    (estimatedGas - fixedExecutionCost) / estimatedGas * 100, lies in
    [0, 100), and is strictly larger for a strictly larger payload. *)
Theorem efficiency_percent (view : ChainView) (k1 k2 price : Q) :
  let e1 := estimates view k1 price in
  let e2 := estimates view k2 price in
  overheadBytes < sizeBytes e1 ->
  (efficiencyPercent e1 ==
   inject_Z (gasOf (sizeBytes e1) - baseExecutionGas) / inject_Z (gasOf (sizeBytes e1))
   * inject_Z 100)%Q /\
  (0 <= efficiencyPercent e1 < 100)%Q /\
  (sizeBytes e1 < sizeBytes e2 -> (efficiencyPercent e1 < efficiencyPercent e2)%Q).
Proof.
  cbv zeta. intros Hsize.
  pose proof (efficiency_formula view k1 price) as F1.
  pose proof (efficiency_formula view k2 price) as F2.
  cbv zeta in F1, F2.
  set (s1 := sizeBytes (estimates view k1 price)) in *.
  set (s2 := sizeBytes (estimates view k2 price)) in *.
  assert (Hs2 : overheadBytes < s2) by apply sizeBytes_above_overhead.
  assert (G1 : 0 <= gasOf s1 - baseExecutionGas).
  { unfold gasOf, estimatedInputCostGas. pose proof (gas_nonneg (s1 - overheadBytes)). lia. }
  assert (B : 0 < baseExecutionGas) by reflexivity.
  split; [exact F1 |]. split.
  - rewrite F1.
    destruct (ratio_range (gasOf s1 - baseExecutionGas) (gasOf s1)) as [Hlo Hhi];
      [lia |].
    split.
    + apply Qmult_le_0_compat; [exact Hlo | discriminate].
    + setoid_replace 100%Q with (1 * inject_Z 100)%Q at 2 by reflexivity.
      apply Qmult_lt_compat_r; [reflexivity | exact Hhi].
  - intros Hlt. rewrite F1, F2.
    apply Qmult_lt_compat_r; [reflexivity |].
    assert (G2 : gasOf s1 < gasOf s2).
    { unfold gasOf, estimatedInputCostGas.
      pose proof (gas_increasing (s1 - overheadBytes) (s2 - overheadBytes)). lia. }
    apply ratio_lt; nia.
Qed.

End EstimatorFacts.

Section GasFormula.

Import Miner.

Lemma countBytes_filled (k : nat) (zeroBytes nonZeroBytes : Z) :
  countBytes (repeat x46 k) zeroBytes nonZeroBytes
  = (zeroBytes, nonZeroBytes + Z.of_nat k).
Proof.
  revert nonZeroBytes.
  induction k as [| k IH]; intros nonZeroBytes.
  - cbn. f_equal. lia.
  - cbn [repeat countBytes]. change (Byte.eqb x46 x00) with false. cbv iota.
    rewrite IH. f_equal. lia.
Qed.

(** The script's own [calculateDataGas] on a payload of 70s: 40 gas a byte. *)
Lemma calculateDataGas_filled (n : Z) :
  calculateDataGas (filled70 n) = 40 * Z.of_nat (Z.to_nat n).
Proof.
  unfold calculateDataGas, filled70. rewrite countBytes_filled. lia.
Qed.

Lemma calculateDataGas_nonneg (n : Z) : 0 <= calculateDataGas (filled70 n).
Proof. rewrite calculateDataGas_filled. lia. Qed.

Lemma calculateDataGas_increasing (m n : Z) :
  0 <= m < n -> calculateDataGas (filled70 m) < calculateDataGas (filled70 n).
Proof. intros H. rewrite !calculateDataGas_filled. lia. Qed.

Lemma efficiency_percent_witness :
  let view := {| baseFeePerGas := Some (10 ^ 10); fctMintRate := 100000 |} in
  let e1 := getEstimatesForSizeKb calculateDataGas (3 # 2) view 25 3000 in
  let e2 := getEstimatesForSizeKb calculateDataGas (3 # 2) view 50 3000 in
  (0 <= efficiencyPercent e1 < 100)%Q /\
  (efficiencyPercent e1 < efficiencyPercent e2)%Q.
Proof.
  cbv zeta.
  destruct (efficiency_percent calculateDataGas (3 # 2)
              calculateDataGas_nonneg calculateDataGas_increasing
              {| baseFeePerGas := Some (10 ^ 10); fctMintRate := 100000 |}
              25 50 3000) as (_ & Hrange & Hmono).
  - vm_compute. reflexivity.
  - split; [exact Hrange |]. apply Hmono. vm_compute. reflexivity.
Defined.

End GasFormula.

(** ** Size candidate ranker *)

Section RankerFacts.

Import Miner Scenario.

(** Both arms of the loop body replace [best] on the same test, so the
    constraints have no effect on the outcome. *)
Lemma rankStep_ignores_constraints (opts : RankOpts) (best : option SizeEstimate)
    (e : SizeEstimate) :
  rankStep opts best e = rankStep noConstraints best e.
Proof.
  unfold rankStep. destruct (meetsCost opts e && meetsEff opts e); reflexivity.
Qed.

Lemma rank_ignores_constraints (opts : RankOpts) (ests : list SizeEstimate) :
  rank opts ests = rank noConstraints ests.
Proof.
  unfold rank. generalize (@None SizeEstimate) as best.
  induction ests as [| e ests IH]; intros best; cbn [fold_left].
  - reflexivity.
  - rewrite rankStep_ignores_constraints. apply IH.
Qed.

Lemma fold_rankStep_some (opts : RankOpts) (ests : list SizeEstimate) (b : SizeEstimate) :
  exists r, fold_left (rankStep opts) ests (Some b) = Some r /\
            (costPerFctUsd r <= costPerFctUsd b)%Q /\
            (forall e, In e ests -> (costPerFctUsd r <= costPerFctUsd e)%Q).
Proof.
  revert b. induction ests as [| e ests IH]; intros b; cbn [fold_left].
  - exists b. split; [reflexivity |]. split; [apply Qle_refl | intros e []].
  - rewrite rankStep_ignores_constraints. unfold rankStep. cbn.
    destruct (JS.ltb (costPerFctUsd e) (costPerFctUsd b)) eqn:Hlt.
    + apply ltb_lt in Hlt.
      destruct (IH e) as (r & Hr & Hre & Hall).
      exists r. split; [exact Hr |]. split.
      * apply Qle_trans with (costPerFctUsd e); [exact Hre | now apply Qlt_le_weak].
      * intros e' [<- | Hin]; [exact Hre | now apply Hall].
    + destruct (IH b) as (r & Hr & Hrb & Hall).
      exists r. split; [exact Hr |]. split; [exact Hrb |].
      intros e' [<- | Hin]; [| now apply Hall].
      apply Qle_trans with (costPerFctUsd b); [exact Hrb |].
      apply Qnot_lt_le. intros Hlt'. apply ltb_lt in Hlt'. congruence.
Qed.

(** What the ranker does compute: a candidate of least cost per unit among
    all candidates, whatever the constraints. *)
Lemma rank_cheapest_overall (opts : RankOpts) (ests : list SizeEstimate) :
  ests <> [] ->
  exists r, rank opts ests = Some r /\
            forall e, In e ests -> (costPerFctUsd r <= costPerFctUsd e)%Q.
Proof.
  destruct ests as [| e0 ests]; [congruence | intros _].
  unfold rank. cbn [fold_left].
  replace (rankStep opts None e0) with (Some e0)
    by (unfold rankStep; destruct (meetsCost opts e0 && meetsEff opts e0); reflexivity).
  destruct (fold_rankStep_some opts ests e0) as (r & Hr & Hr0 & Hall).
  exists r. split; [exact Hr |].
  intros e [<- | Hin]; [exact Hr0 | now apply Hall].
Qed.

(** C1, on the code.  With a minimum efficiency of 98.5% and the mint rate
    halving after the first read, the 50 KB, 75 KB and 100 KB candidates
    meet the constraint, yet the ranker returns the 25 KB candidate, whose
    efficiency is below the floor. *)
Theorem ranker_returns_unsatisfying_candidate :
  let ests := candidateEstimates calculateDataGas (3 # 2) 25 100 rateDrop 3000
                efficiencyFloor in
  let picked := pickBestSizeAndEstimates calculateDataGas (3 # 2) 25 100 rateDrop 3000
                  efficiencyFloor in
  map kb ests = [25; 50; 75; 100] /\
  map (fun e : SizeEstimate => meetsCost efficiencyFloor e && meetsEff efficiencyFloor e) ests
    = [false; true; true; true] /\
  option_map kb picked = Some 25 /\
  ~ specRankerContract efficiencyFloor ests picked.
Proof.
  cbv zeta. split; [vm_compute; reflexivity |].
  split; [vm_compute; reflexivity |].
  split; [vm_compute; reflexivity |].
  intros Hspec.
  destruct Hspec as (r & Hr & Hmeets & _).
  - exists {| est := getEstimatesForSizeKb calculateDataGas (3 # 2) (rateDrop 1) 50 3000;
              kb := 50 |}.
    split; [| vm_compute; reflexivity].
    unfold candidateEstimates. right. left. vm_compute. reflexivity.
  - assert (Hfirst : option_map (fun e : SizeEstimate => meetsEff efficiencyFloor e)
                    (pickBestSizeAndEstimates calculateDataGas (3 # 2) 25 100 rateDrop 3000
                       efficiencyFloor) = Some false) by (vm_compute; reflexivity).
    rewrite Hr in Hfirst. cbn [option_map] in Hfirst.
    injection Hfirst as Hfirst. rewrite Hfirst, andb_false_r in Hmeets.
    discriminate Hmeets.
Qed.

(** The same on a steady chain without a base fee: every cost per unit is
    0, no later candidate is strictly cheaper, and the 25 KB candidate is
    kept although it misses the efficiency floor. *)
Example ranker_keeps_first_on_ties :
  let steady := fun _ : nat => {| baseFeePerGas := None; fctMintRate := 100000 |} in
  let picked := pickBestSizeAndEstimates calculateDataGas (3 # 2) 25 100 steady 3000
                  efficiencyFloor in
  option_map kb picked = Some 25 /\
  option_map (fun e : SizeEstimate => meetsEff efficiencyFloor e) picked = Some false.
Proof. cbv zeta. split; vm_compute; reflexivity. Qed.

End RankerFacts.

(** ** Mining session loop *)

Section LoopFacts.

Import Miner.

Variable calculateInputGasCost : list byte -> Z.
Variable gasPriceMultiplier : Q.
Variable STOP_ON_TX_FAIL : bool.
Variable w : World.
Variables (spendCap : Z) (dataSize : Z).

Let estimate (read : nat) : Z :=
  estimateTransactionCost calculateInputGasCost gasPriceMultiplier dataSize
    (views w read).
Let loopFrom :=
  miningLoopFrom calculateInputGasCost gasPriceMultiplier STOP_ON_TX_FAIL w
    spendCap dataSize.

Lemma spentIn_app (xs ys : list Event) :
  spentIn (xs ++ ys) = spentIn xs + spentIn ys.
Proof.
  induction xs as [| e xs IH]; cbn [app spentIn]; [reflexivity |].
  destruct e; rewrite IH; lia.
Qed.

(** [totalSpent] is the sum of [ethSpent] over the completed transactions. *)
Lemma totalSpent_accounts (fuel : nat) (s : Session) :
  totalSpent (final (loopFrom fuel s)) = totalSpent s + spentIn (trace (loopFrom fuel s)).
Proof.
  revert s. induction fuel as [| fuel IH]; intros s; cbn.
  - lia.
  - destruct (spendCap <=? totalSpent s); cbn; [lia |].
    destruct (spendCap <? totalSpent s + _); cbn; [lia |].
    destruct (responses w (S (transactionCount s))); cbn; try lia.
    + destruct STOP_ON_TX_FAIL; cbn; [lia |]. fold loopFrom. rewrite IH. cbn. lia.
    + destruct (spendCap <? _); cbn; [lia |]. fold loopFrom. rewrite IH. cbn. lia.
Qed.

(** Walks a trace whose first events are known, looking for the place of
    the event that [H] says follows [pre]. *)
Ltac locate H pre :=
  lazymatch type of H with
  | nil = _ => destruct pre; discriminate H
  | cons _ _ = _ =>
      destruct pre as [| ? pre]; cbn [app] in H;
      [ try discriminate H | injection H as <- H; locate H pre ]
  | _ => idtac
  end.

Ltac fresh_reads Hfresh :=
  let r' := fresh "r'" in
  let c' := fresh "c'" in
  let Hin := fresh "Hin" in
  intros r' c' Hin; cbn [In] in Hin;
  repeat (destruct Hin as [Hin | Hin];
          [ first [ discriminate Hin | injection Hin as <- _; lia ] | ]);
  first [ contradiction | specialize (Hfresh r' c' Hin); lia ].

Lemma guarded_from (fuel : nat) :
  forall s pre post,
    trace (loopFrom fuel s) = pre ++ UpdateStatus submitting :: post ->
    exists pre' r,
      pre = pre' ++ [ReadEstimate r (estimate r); StartTransaction (estimate r)] /\
      totalSpent s + spentIn pre' + estimate r <= spendCap /\
      (reads s <= r)%nat /\
      (forall r' c', In (ReadEstimate r' c') pre' -> (r' < r)%nat).
Proof.
  induction fuel as [| fuel IH]; intros s pre post H; cbn in H.
  - destruct pre; discriminate H.
  - destruct (spendCap <=? totalSpent s); cbn in H; [destruct pre; discriminate H |].
    fold (estimate (reads s)) in H.
    destruct (Z.ltb_spec spendCap (totalSpent s + estimate (reads s))) as [Hover | Hfit];
      cbn in H; [locate H pre |].
    destruct (responses w (S (transactionCount s))); cbn in H.
    + destruct STOP_ON_TX_FAIL; cbn in H; locate H pre.
      destruct (IH _ _ _ H) as (pre' & r & -> & Hspent & Hr & Hfresh).
      cbn [totalSpent reads] in Hspent, Hr.
      eexists (_ :: _ :: _ :: pre'), r.
      split; [reflexivity |]. cbn [spentIn].
      split; [lia |]. split; [lia |]. fresh_reads Hfresh.
    + locate H pre.
      exists [], (reads s). cbn [app spentIn In].
      split; [reflexivity |]. split; [lia |]. split; [lia |]. intros ? ? [].
    + locate H pre.
      exists [], (reads s). cbn [app spentIn In].
      split; [reflexivity |]. split; [lia |]. split; [lia |]. intros ? ? [].
    + fold (estimate (S (reads s))) in H.
      destruct (spendCap <? _); cbn in H; locate H pre.
      * exists [], (reads s). cbn [app spentIn In].
        split; [reflexivity |]. split; [lia |]. split; [lia |]. intros ? ? [].
      * exists [], (reads s). cbn [app spentIn In].
        split; [reflexivity |]. split; [lia |]. split; [lia |]. intros ? ? [].
      * destruct (IH _ _ _ H) as (pre' & r & -> & Hspent & Hr & Hfresh).
        cbn [totalSpent reads] in Hspent, Hr.
        eexists (_ :: _ :: _ :: _ :: _ :: _ :: _ :: pre'), r.
        split; [reflexivity |]. cbn [spentIn].
        split; [lia |]. split; [lia |]. fresh_reads Hfresh.
Qed.

(** C2. Whenever the session loop moves a transaction to "submitting",
    the two events just before are a chain read made in that iteration
    (a read no earlier event made) and the start of the transaction at
    the cost estimated from it, and the amount spent so far plus that
    cost is within the spend cap. *)
Theorem submission_guarded (fuel : nat) (pre post : list Event) :
  trace (miningLoop calculateInputGasCost gasPriceMultiplier STOP_ON_TX_FAIL w
           spendCap dataSize fuel)
  = pre ++ UpdateStatus submitting :: post ->
  exists pre' r,
    let cost := estimateTransactionCost calculateInputGasCost gasPriceMultiplier
                  dataSize (views w r) in
    pre = pre' ++ [ReadEstimate r cost; StartTransaction cost] /\
    spentIn pre' + cost <= spendCap /\
    readsBelow r pre'.
Proof.
  intros H. unfold miningLoop in H.
  destruct (guarded_from fuel _ pre post H) as (pre' & r & Hpre & Hspent & _ & Hfresh).
  exists pre', r. cbv zeta. cbn [totalSpent] in Hspent.
  split; [exact Hpre |]. split; [exact Hspent | exact Hfresh].
Qed.

(** A transaction whose call returns [null] ends the loop whatever the
    stop-on-failure flag says. *)
Lemma null_result_stops (fuel : nat) (s : Session) :
  totalSpent s < spendCap ->
  totalSpent s + estimate (reads s) <= spendCap ->
  responses w (S (transactionCount s)) = SubmitError \/
  responses w (S (transactionCount s)) = ConfirmError ->
  exited (loopFrom (S fuel) s) = true /\
  transactionCount (final (loopFrom (S fuel) s)) = S (transactionCount s).
Proof.
  intros Hrun Hfit Hresp. cbn. fold (estimate (reads s)).
  destruct (Z.leb_spec spendCap (totalSpent s)); [lia |].
  destruct (Z.ltb_spec spendCap (totalSpent s + estimate (reads s))); [lia |].
  destruct Hresp as [-> | ->]; cbn; split; reflexivity.
Qed.

(** A transaction whose call throws ends the loop when the flag is set and
    hands over to the next iteration when it is not. *)
Lemma thrown_error_follows_flag (fuel : nat) (s : Session) :
  totalSpent s < spendCap ->
  totalSpent s + estimate (reads s) <= spendCap ->
  responses w (S (transactionCount s)) = GasPriceError ->
  let s1 := {| totalSpent := totalSpent s; totalFctMinted := totalFctMinted s;
               transactionCount := S (transactionCount s); reads := S (reads s) |} in
  let evs := [ReadEstimate (reads s) (estimate (reads s));
              StartTransaction (estimate (reads s)); UpdateStatus failed] in
  loopFrom (S fuel) s =
    if STOP_ON_TX_FAIL then stopped s1 evs else after evs (loopFrom fuel s1).
Proof.
  intros Hrun Hfit Hresp. cbn. fold (estimate (reads s)).
  destruct (Z.leb_spec spendCap (totalSpent s)); [lia |].
  destruct (Z.ltb_spec spendCap (totalSpent s + estimate (reads s))); [lia |].
  rewrite Hresp. destruct STOP_ON_TX_FAIL; reflexivity.
Qed.

End LoopFacts.

Section LoopRuns.

Import Miner Scenario.

Lemma submission_guarded_witness :
  exists pre' r,
    let cost := estimateTransactionCost calculateDataGas (3 # 2) 102400
                  (views allConfirmed r) in
    [ReadEstimate 0 61659000000000000; StartTransaction 61659000000000000]
      = pre' ++ [ReadEstimate r cost; StartTransaction cost] /\
    spentIn pre' + cost <= 10 ^ 18 /\
    readsBelow r pre'.
Proof.
  apply (submission_guarded calculateDataGas (3 # 2) true allConfirmed (10 ^ 18) 102400
           1%nat
           [ReadEstimate 0 61659000000000000; StartTransaction 61659000000000000]
           [UpdateStatus confirming; ReadEstimate 1 61659000000000000;
            UpdateStatus completed; CompleteTransaction 61659000000000000 1000]).
  vm_compute. reflexivity.
Defined.

(** C6, on the code.  With the stop-on-failure flag unset, a budget of
    1 ETH and a first transaction whose broadcast is rejected (the call
    returns [null]), the loop ends after that one transaction although
    nothing has been spent. *)
Theorem rejected_transaction_ends_loop_with_flag_unset :
  let run := miningLoop calculateDataGas (3 # 2) false firstRejected (10 ^ 18) 102400 5 in
  exited run = true /\
  transactionCount (final run) = 1%nat /\
  totalSpent (final run) = 0 /\
  trace run = [ReadEstimate 0 61659000000000000; StartTransaction 61659000000000000;
               UpdateStatus submitting; UpdateStatus failed; UpdateStatus failed].
Proof.
  cbv zeta.
  split; [vm_compute; reflexivity |].
  split; [vm_compute; reflexivity |].
  split; vm_compute; reflexivity.
Qed.

(** The flag is honoured when the call throws instead: unset, the loop goes
    on to the second transaction; set, it ends after the first. *)
Example thrown_error_run :
  let unset := miningLoop calculateDataGas (3 # 2) false firstThrows (10 ^ 17) 102400 5 in
  let set := miningLoop calculateDataGas (3 # 2) true firstThrows (10 ^ 17) 102400 5 in
  (exited unset = true /\ transactionCount (final unset) = 2%nat /\
   totalSpent (final unset) = 61659000000000000) /\
  (exited set = true /\ transactionCount (final set) = 1%nat /\
   totalSpent (final set) = 0).
Proof.
  cbv zeta. split.
  - split; [vm_compute; reflexivity |]. split; vm_compute; reflexivity.
  - split; [vm_compute; reflexivity |]. split; vm_compute; reflexivity.
Qed.

End LoopRuns.

(** ** Numbers *)

Section MaxFacts.

Lemma max_cases (a b : Q) :
  (JS.max a b = a /\ (b <= a)%Q) \/ (JS.max a b = b /\ (a <= b)%Q).
Proof.
  unfold JS.max. destruct (Qle_bool a b) eqn:Hle.
  - right. split; [reflexivity | now apply Qle_bool_iff].
  - left. split; [reflexivity |].
    apply Qlt_le_weak, Qnot_le_lt. intros H. apply Qle_bool_iff in H. congruence.
Qed.

End MaxFacts.

(** ** Stuck-transaction canceller *)

Section CancellerFacts.

Import CancelRange.

Variable BUMP : Number.number.
Variable DELAY : Z.
Variable rpc : Z -> nat -> Transaction -> Response.

Let attemptsFrom := attemptsFrom Viem.parseGwei BUMP rpc.
Let cancelNonce := cancelNonce Viem.parseGwei BUMP rpc.
Let sweep := sweep Viem.parseGwei BUMP DELAY rpc.
Let main := main Viem.parseGwei BUMP DELAY rpc.











End CancellerFacts.

Section CancellerRuns.

Import CancelRange Scenario.


(** A sweep over nonces 10 and 11 against a node that refuses every
    submission as underpriced: one failed attempt and the pause for each,
    from the starting fees. *)
Example sweep_against_underpriced_node :
  main Viem.parseGwei defaultBump 1500 alwaysUnderpriced 10 11 10 defaultFees
  = (defaultFees,
     [Failure 10 "value.split is not a function"; Sleep 1500;
      Failure 11 "value.split is not a function"; Sleep 1500]).
Proof. vm_compute. reflexivity. Qed.

(** The bump of the "underpriced" branch rounds the binary64 product:
    30.000006 * 1.25 is 37.500007499999995 as a number, so the new tip
    is 37.500007. *)
Example bump_rounds_the_product :
  bump defaultBump
    {| TIP := Number.ofRatio 30000006 1000000; MAX := Number.ofBigInt 60 |}
  = {| TIP := Number.ofRatio 37500007 1000000; MAX := Number.ofBigInt 75 |}.
Proof. vm_compute. reflexivity. Qed.

End CancellerRuns.

(** ** Mining payload and data gas *)

Section PayloadFacts.

Import Miner.

Lemma fillPattern_length (p : list byte) (k : nat) (i : Z) :
  List.length (fillPattern p k i) = k.
Proof.
  revert i. induction k as [| k IH]; intros i; cbn [fillPattern List.length];
    [reflexivity | now rewrite IH].
Qed.

Lemma fillPattern_nth (p : list byte) (k : nat) :
  forall (i : Z) (j : nat),
    (j < k)%nat ->
    nth j (fillPattern p k i) x00
    = nth (Z.to_nat ((i + Z.of_nat j) mod Z.of_nat (List.length p))) p x00.
Proof.
  induction k as [| k IH]; intros i j Hj; [lia |].
  cbn [fillPattern]. destruct j as [| j]; cbn [nth].
  - now rewrite Z.add_0_r.
  - rewrite IH by lia. do 3 f_equal. lia.
Qed.

Lemma pattern_byte_nonzero (i : Z) :
  nth (Z.to_nat (i mod 9)) (list_byte_of_string "FACETMINE") x00 <> x00.
Proof.
  pose proof (Z.mod_pos_bound i 9 ltac:(lia)) as Hb.
  assert (Hn : (Z.to_nat (i mod 9) < 9)%nat) by lia.
  destruct (Z.to_nat (i mod 9)) as [| [| [| [| [| [| [| [| [| n]]]]]]]]];
    cbn; try discriminate. lia.
Qed.

Lemma fillPattern_nonzero (k : nat) (i : Z) (b : byte) :
  In b (fillPattern (list_byte_of_string "FACETMINE") k i) -> b <> x00.
Proof.
  revert i. induction k as [| k IH]; intros i; cbn [fillPattern In]; [tauto |].
  intros [<- | Hin]; [apply pattern_byte_nonzero | exact (IH _ Hin)].
Qed.

(** X1. [createMineBoostData] returns exactly the asked number of bytes,
    none of them zero, and byte [i] is byte [i mod 9] of "FACETMINE". *)
Theorem mine_boost_data_shape (sizeInBytes : Z) :
  0 <= sizeInBytes ->
  let data := createMineBoostData sizeInBytes in
  Z.of_nat (List.length data) = sizeInBytes /\
  (forall b, In b data -> b <> x00) /\
  (forall i, 0 <= i < sizeInBytes ->
     nth (Z.to_nat i) data x00
     = nth (Z.to_nat (i mod 9)) (list_byte_of_string "FACETMINE") x00).
Proof.
  intros Hn. cbv zeta. unfold createMineBoostData. split; [| split].
  - rewrite fillPattern_length. lia.
  - intros b. apply fillPattern_nonzero.
  - intros i Hi. rewrite fillPattern_nth by lia.
    rewrite Z2Nat.id by lia. reflexivity.
Qed.

Lemma mine_boost_data_shape_witness :
  Z.of_nat (List.length (createMineBoostData 20)) = 20 /\
  nth 11 (createMineBoostData 20) x00 = "C"%byte.
Proof.
  destruct (mine_boost_data_shape 20) as (Hlen & _ & Hnth); [lia |].
  split; [exact Hlen |]. apply (Hnth 11). lia.
Defined.

Lemma countBytes_shift (data : list byte) (z nz : Z) :
  countBytes data z nz
  = (z + fst (countBytes data 0 0), nz + snd (countBytes data 0 0)).
Proof.
  revert z nz. induction data as [| b data IH]; intros z nz; cbn [countBytes].
  - cbn. f_equal; lia.
  - destruct (Byte.eqb b x00).
    + rewrite (IH (z + 1) nz), (IH (0 + 1) 0). cbn [fst snd]. f_equal; lia.
    + rewrite (IH z (nz + 1)), (IH 0 (0 + 1)). cbn [fst snd]. f_equal; lia.
Qed.

Lemma countBytes_app (a b : list byte) (z nz : Z) :
  countBytes (a ++ b) z nz
  = countBytes b (fst (countBytes a z nz)) (snd (countBytes a z nz)).
Proof.
  revert z nz. induction a as [| x a IH]; intros z nz; cbn [app countBytes].
  - reflexivity.
  - destruct (Byte.eqb x x00); apply IH.
Qed.

Lemma countBytes_total (data : list byte) :
  0 <= fst (countBytes data 0 0) /\ 0 <= snd (countBytes data 0 0) /\
  fst (countBytes data 0 0) + snd (countBytes data 0 0) = Z.of_nat (List.length data).
Proof.
  induction data as [| b data (Hz & Hnz & Hsum)]; cbn [countBytes List.length].
  - cbn. lia.
  - destruct (Byte.eqb b x00); rewrite countBytes_shift; cbn [fst snd]; lia.
Qed.

Lemma calculateDataGas_counts (data : list byte) :
  calculateDataGas data
  = fst (countBytes data 0 0) * 10 + snd (countBytes data 0 0) * 40.
Proof. unfold calculateDataGas. now destruct (countBytes data 0 0). Qed.

(** X2. [calculateDataGas] adds up over concatenation and charges between
    10 and 40 gas a byte. *)
Theorem data_gas_additive_and_bounded (a b : list byte) :
  calculateDataGas (a ++ b) = calculateDataGas a + calculateDataGas b /\
  10 * Z.of_nat (List.length a) <= calculateDataGas a <= 40 * Z.of_nat (List.length a).
Proof.
  split.
  - rewrite !calculateDataGas_counts, countBytes_app, countBytes_shift.
    cbn [fst snd]. lia.
  - rewrite calculateDataGas_counts. pose proof (countBytes_total a). lia.
Qed.

Lemma countBytes_nonzero (data : list byte) :
  (forall b, In b data -> b <> x00) ->
  countBytes data 0 0 = (0, Z.of_nat (List.length data)).
Proof.
  induction data as [| b data IH]; intros Hnz; cbn [countBytes List.length].
  - reflexivity.
  - destruct (Byte.eqb b x00) eqn:Hb.
    + apply Byte.byte_dec_bl in Hb. subst b.
      exfalso. apply (Hnz x00); [now left | reflexivity].
    + rewrite countBytes_shift, IH by (intros c Hc; apply Hnz; now right).
      cbn [fst snd]. f_equal. lia.
Qed.

Lemma countBytes_payload (n : Z) :
  countBytes (createMineBoostData n) 0 0 = countBytes (filled70 n) 0 0.
Proof.
  unfold createMineBoostData, filled70.
  rewrite !countBytes_nonzero.
  - now rewrite fillPattern_length, repeat_length.
  - intros b Hb. apply repeat_spec in Hb. subst. discriminate.
  - intros b. apply fillPattern_nonzero.
Qed.

(** X3. The data gas of the mining payload is 40 gas for each of its
    bytes, the same as for the payload of 70s the estimates are made
    on. *)
Theorem mining_payload_gas (sizeInBytes : Z) :
  0 <= sizeInBytes ->
  calculateDataGas (createMineBoostData sizeInBytes) = 40 * sizeInBytes /\
  calculateDataGas (createMineBoostData sizeInBytes)
  = calculateDataGas (filled70 sizeInBytes).
Proof.
  intros Hn. rewrite !calculateDataGas_counts, countBytes_payload.
  split; [| reflexivity].
  unfold filled70. rewrite countBytes_nonzero.
  - cbn [fst snd]. rewrite repeat_length. lia.
  - intros b Hb. apply repeat_spec in Hb. subst. discriminate.
Qed.

Lemma mining_payload_gas_witness :
  calculateDataGas (createMineBoostData 102240) = 40 * 102240.
Proof. apply (mining_payload_gas 102240). lia. Defined.

End PayloadFacts.

(** ** Estimates: sizes, agreement, edge cases *)

Section EstimateFacts.

Import Miner Interactive.

Variable calculateInputGasCost : list byte -> Z.
Variable gasPriceMultiplier : Q.

Let estimates := getEstimatesForSizeKb calculateInputGasCost gasPriceMultiplier.

Lemma floor_below (x : Q) (z : Z) : (x < inject_Z z)%Q -> Qfloor x < z.
Proof.
  intros Hx. rewrite Zlt_Qlt.
  apply Qle_lt_trans with x; [apply Qfloor_le | exact Hx].
Qed.

(** X4. Whatever size is asked for, the estimator works on a whole number
    of KB between 1 and 100: a request below 1 KB is estimated as 1 KB
    and one above 100 KB as 100 KB. *)
Theorem estimator_size_clamped (view : ChainView) (k price : Q) :
  let e := estimates view k price in
  1024 <= sizeBytes e <= 102400 /\
  sizeBytes e mod 1024 = 0 /\
  ((k < 2)%Q -> sizeBytes e = 1024) /\
  ((100 <= k)%Q -> sizeBytes e = 102400) /\
  ((1 <= k)%Q -> (k < 101)%Q -> sizeBytes e = Qfloor k * 1024).
Proof.
  cbv zeta. unfold estimates, getEstimatesForSizeKb. cbn [sizeBytes].
  unfold clampKb, JS.floor.
  split; [lia |]. split; [apply Z.mod_mul; lia |].
  split; [| split].
  - intros Hk. assert (Qfloor k < 2) by (apply floor_below; exact Hk). lia.
  - intros Hk. assert (Qfloor 100 <= Qfloor k) by (now apply Qfloor_resp_le).
    change (Qfloor 100) with 100 in *. lia.
  - intros Hlo Hhi.
    assert (Qfloor 1 <= Qfloor k) by (now apply Qfloor_resp_le).
    assert (Qfloor k < 101) by (apply floor_below; exact Hhi).
    change (Qfloor 1) with 1 in *. lia.
Qed.

(** X6. On a block without a base fee the estimator reports a burn of 0,
    nothing minted and a cost per FCT of 0, whatever the size. *)
Theorem estimator_without_base_fee (view : ChainView) (k price : Q) :
  baseFeePerGas view = None \/ baseFeePerGas view = Some 0 ->
  let e := estimates view k price in
  estimatedEthBurn e = 0 /\ fctMintAmount e = 0 /\ ethPerFct e = 0 /\
  (costPerFctUsd e == 0)%Q.
Proof.
  intros Hfee. cbv zeta. unfold estimates, getEstimatesForSizeKb.
  cbn [estimatedEthBurn fctMintAmount ethPerFct costPerFctUsd].
  assert (H0 : baseFeeOf view = 0).
  { unfold baseFeeOf. destruct Hfee as [-> | ->]; reflexivity. }
  rewrite H0. unfold adjustBaseFee, JS.floor, JS.ofBigInt.
  assert (Hadj : Qfloor (inject_Z 0 * gasPriceMultiplier) = 0).
  { rewrite (Qfloor_comp _ 0%Q); [reflexivity | ring]. }
  rewrite Hadj, !Z.mul_0_r, Z.mul_0_l. cbn [Z.ltb Z.compare].
  split; [reflexivity |]. split; [reflexivity |]. split; [reflexivity |].
  rewrite Qred_correct. unfold JS.etherOf. field. discriminate.
Qed.

End EstimateFacts.

Section EstimateRuns.

Import Miner Interactive.

Lemma estimator_size_clamped_witness :
  sizeBytes (getEstimatesForSizeKb calculateDataGas (3 # 2)
               {| baseFeePerGas := Some (10 ^ 10); fctMintRate := 100000 |}
               (255 # 10) 3000) = 25 * 1024 /\
  sizeBytes (getEstimatesForSizeKb calculateDataGas (3 # 2)
               {| baseFeePerGas := Some (10 ^ 10); fctMintRate := 100000 |}
               250 3000) = 102400.
Proof.
  split.
  - destruct (estimator_size_clamped calculateDataGas (3 # 2)
                {| baseFeePerGas := Some (10 ^ 10); fctMintRate := 100000 |}
                (255 # 10) 3000) as (_ & _ & _ & _ & H).
    rewrite H; [reflexivity | discriminate | reflexivity].
  - destruct (estimator_size_clamped calculateDataGas (3 # 2)
                {| baseFeePerGas := Some (10 ^ 10); fctMintRate := 100000 |}
                250 3000) as (_ & _ & _ & H & _).
    apply H. discriminate.
Defined.

Lemma estimator_without_base_fee_witness :
  let e := getEstimatesForSizeKb calculateDataGas (3 # 2)
             {| baseFeePerGas := None; fctMintRate := 100000 |} 50 3000 in
  estimatedEthBurn e = 0 /\ fctMintAmount e = 0 /\ ethPerFct e = 0 /\
  (costPerFctUsd e == 0)%Q.
Proof.
  refine (estimator_without_base_fee calculateDataGas (3 # 2)
            {| baseFeePerGas := None; fctMintRate := 100000 |} 50 3000 _).
  left. reflexivity.
Defined.

End EstimateRuns.

Section EstimateAgreement.

Import Miner Interactive.

Variable calculateInputGasCost : list byte -> Z.
Variable gasPriceMultiplier : Q.

(** The gas formula looks at how many zero and non-zero bytes there are,
    not at which bytes they are. *)
Hypothesis gas_by_count :
  forall a b, countBytes a 0 0 = countBytes b 0 0 ->
              calculateInputGasCost a = calculateInputGasCost b.

Let estimates := getEstimatesForSizeKb calculateInputGasCost gasPriceMultiplier.
Let loopCost := estimateTransactionCost calculateInputGasCost gasPriceMultiplier.

Lemma menuCost_is_loop_cost (view : ChainView) (bytes : Z) :
  menuCost calculateInputGasCost gasPriceMultiplier view bytes = loopCost bytes view.
Proof.
  unfold menuCost, loopCost, estimateTransactionCost.
  now rewrite (gas_by_count _ _ (countBytes_payload (bytes - overheadBytes))).
Qed.

(** X5. On one block, the cost the size menu shows, the burn the auto
    controller plans its spend cap with and the cost the session loop
    checks against the cap are the same number; and the menu only hands
    out sizes from 1 KB to 100 KB. *)
Theorem estimates_agree (view : ChainView) (k price : Q) (choice : string)
    (customKb : option Z) (sel : Selection) :
  selectMiningSize calculateInputGasCost gasPriceMultiplier view choice customKb
    = Some sel ->
  1024 <= selectedSize sel <= 102400 /\
  estimatedCostPerTx sel = loopCost (selectedSize sel) view /\
  estimatedEthBurn (estimates view k price)
    = loopCost (sizeBytes (estimates view k price)) view.
Proof.
  intros Hsel. split; [| split].
  - unfold selectMiningSize, menuIndex in Hsel.
    destruct (String.eqb choice "1"); [injection Hsel as <-; cbn; lia |].
    destruct (String.eqb choice "2"); [injection Hsel as <-; cbn; lia |].
    destruct (String.eqb choice "3"); [injection Hsel as <-; cbn; lia |].
    destruct (String.eqb choice "4"); [injection Hsel as <-; cbn; lia |].
    destruct (String.eqb choice "5"); [| discriminate].
    destruct customKb as [c |]; [| discriminate].
    destruct (Z.ltb_spec c 1); [discriminate |].
    destruct (Z.ltb_spec 100 c); [discriminate |].
    cbn [orb] in Hsel. injection Hsel as <-. cbn [selectedSize]. lia.
  - unfold selectMiningSize in Hsel.
    destruct (menuIndex choice) as [i |].
    + destruct (nth_error sizeOptions i); [| discriminate].
      injection Hsel as <-. apply menuCost_is_loop_cost.
    + destruct (String.eqb choice "5"); [| discriminate].
      destruct customKb as [c |]; [| discriminate].
      destruct ((c <? 1) || (100 <? c)); [discriminate |].
      injection Hsel as <-. apply menuCost_is_loop_cost.
  - rewrite <- menuCost_is_loop_cost. reflexivity.
Qed.

End EstimateAgreement.

Section CostBySize.

Import Miner.

Variable calculateInputGasCost : list byte -> Z.
Variable gasPriceMultiplier : Q.

Hypothesis gas_positive :
  forall n, 0 < n -> 0 < calculateInputGasCost (filled70 n).
Hypothesis gas_monotone :
  forall m n, 0 <= m <= n ->
    calculateInputGasCost (filled70 m) <= calculateInputGasCost (filled70 n).

Let estimates := getEstimatesForSizeKb calculateInputGasCost gasPriceMultiplier.

Lemma div_cross (a1 b1 a2 b2 : Z) :
  0 < b1 -> 0 < b2 -> a2 * b1 <= a1 * b2 -> a2 / b2 <= a1 / b1.
Proof.
  intros H1 H2 Hc. apply Z.div_le_lower_bound; [exact H1 |].
  pose proof (Z.mul_div_le a2 b2 H2) as Hq.
  assert (b2 * (b1 * (a2 / b2)) <= b2 * a1) by nia.
  nia.
Qed.

(** X7. On one block with a positive base fee and mint rate, a larger
    payload never costs more per FCT, in ETH or in USD. *)
Theorem cost_per_fct_by_size (view : ChainView) (k1 k2 price : Q) (fee : Z) :
  baseFeePerGas view = Some fee ->
  0 < fee -> 0 < fctMintRate view ->
  (0 <= gasPriceMultiplier)%Q -> (0 <= price)%Q ->
  let e1 := estimates view k1 price in
  let e2 := estimates view k2 price in
  sizeBytes e1 <= sizeBytes e2 ->
  ethPerFct e2 <= ethPerFct e1 /\
  (costPerFctUsd e2 <= costPerFctUsd e1)%Q.
Proof.
  intros Hfee Hpos Hrate Hmult Hprice. cbv zeta.
  unfold estimates, getEstimatesForSizeKb.
  cbn [sizeBytes ethPerFct costPerFctUsd]. intros Hsize.
  assert (Hf : baseFeeOf view = fee) by (unfold baseFeeOf; now rewrite Hfee).
  rewrite Hf.
  pose proof (clampKb_range k1) as R1. pose proof (clampKb_range k2) as R2.
  set (s1 := clampKb k1 * 1024) in *. set (s2 := clampKb k2 * 1024) in *.
  unfold estimatedInputCostGas.
  set (g1 := calculateInputGasCost (filled70 (s1 - overheadBytes))).
  set (g2 := calculateInputGasCost (filled70 (s2 - overheadBytes))).
  assert (G1 : 0 < g1) by (apply gas_positive; unfold s1, overheadBytes; lia).
  assert (G2 : 0 < g2) by (apply gas_positive; unfold s2, overheadBytes; lia).
  assert (G12 : g1 <= g2)
    by (apply gas_monotone; unfold s1, s2, overheadBytes in *; lia).
  set (adj := adjustBaseFee gasPriceMultiplier fee).
  assert (Hadj : 0 <= adj).
  { unfold adj, adjustBaseFee, JS.floor, JS.ofBigInt.
    change 0 with (Qfloor 0). apply Qfloor_resp_le.
    apply Qmult_le_0_compat; [| exact Hmult].
    change 0%Q with (inject_Z 0). rewrite <- Zle_Qle. lia. }
  replace (g1 + baseExecutionGas - baseExecutionGas) with g1 by lia.
  replace (g2 + baseExecutionGas - baseExecutionGas) with g2 by lia.
  assert (M1 : 0 < g1 * fee * fctMintRate view) by nia.
  assert (M2 : 0 < g2 * fee * fctMintRate view) by nia.
  destruct (Z.ltb_spec 0 (g1 * fee * fctMintRate view)); [| lia].
  destruct (Z.ltb_spec 0 (g2 * fee * fctMintRate view)); [| lia].
  assert (B : 0 < baseExecutionGas) by reflexivity.
  assert (N1 : 0 <= (g1 + baseExecutionGas) * adj * 10 ^ 18) by nia.
  assert (N2 : 0 <= (g2 + baseExecutionGas) * adj * 10 ^ 18) by nia.
  rewrite !Z.quot_div_nonneg by lia.
  assert (Hle : (g2 + baseExecutionGas) * adj * 10 ^ 18 / (g2 * fee * fctMintRate view)
                <= (g1 + baseExecutionGas) * adj * 10 ^ 18
                   / (g1 * fee * fctMintRate view)).
  { apply div_cross; [lia | lia |].
    set (c := baseExecutionGas) in *. set (r := fctMintRate view) in *.
    assert (0 <= adj * 10 ^ 18 * (fee * r)) by nia.
    assert (g2 * g1 + c * g1 <= g1 * g2 + c * g2) by nia.
    replace ((g2 + c) * adj * 10 ^ 18 * (g1 * fee * r))
      with ((g2 * g1 + c * g1) * (adj * 10 ^ 18 * (fee * r))) by ring.
    replace ((g1 + c) * adj * 10 ^ 18 * (g2 * fee * r))
      with ((g1 * g2 + c * g2) * (adj * 10 ^ 18 * (fee * r))) by ring.
    apply Z.mul_le_mono_nonneg_r; assumption. }
  split; [exact Hle |].
  rewrite !Qred_correct. unfold JS.etherOf.
  apply Qmult_le_compat_r; [| exact Hprice].
  apply Qmult_le_compat_r; [| discriminate].
  rewrite <- Zle_Qle. exact Hle.
Qed.

End CostBySize.

Section CostRuns.

Import Miner Interactive.

Lemma calculateDataGas_by_count (a b : list byte) :
  countBytes a 0 0 = countBytes b 0 0 -> calculateDataGas a = calculateDataGas b.
Proof. intros H. now rewrite !calculateDataGas_counts, H. Qed.

Lemma estimates_agree_witness :
  estimateTransactionCost calculateDataGas (3 # 2) (50 * 1024)
    {| baseFeePerGas := Some (10 ^ 10); fctMintRate := 100000 |}
  = (40 * (50 * 1024 - 160) + 21000) * 15000000000.
Proof.
  destruct (estimates_agree calculateDataGas (3 # 2) calculateDataGas_by_count
              {| baseFeePerGas := Some (10 ^ 10); fctMintRate := 100000 |}
              50 3000 "2" None
              {| selectedSize := 50 * 1024;
                 estimatedCostPerTx := (40 * (50 * 1024 - 160) + 21000) * 15000000000 |})
    as (_ & Hcost & _).
  - vm_compute. reflexivity.
  - symmetry. exact Hcost.
Defined.

Lemma calculateDataGas_positive (n : Z) : 0 < n -> 0 < calculateDataGas (filled70 n).
Proof. intros H. rewrite calculateDataGas_filled. lia. Qed.

Lemma calculateDataGas_monotone (m n : Z) :
  0 <= m <= n -> calculateDataGas (filled70 m) <= calculateDataGas (filled70 n).
Proof. intros H. rewrite !calculateDataGas_filled. lia. Qed.

Lemma cost_per_fct_by_size_witness :
  let view := {| baseFeePerGas := Some (10 ^ 10); fctMintRate := 100000 |} in
  let e1 := getEstimatesForSizeKb calculateDataGas (3 # 2) view 25 3000 in
  let e2 := getEstimatesForSizeKb calculateDataGas (3 # 2) view 100 3000 in
  ethPerFct e2 <= ethPerFct e1 /\ (costPerFctUsd e2 <= costPerFctUsd e1)%Q.
Proof.
  refine (cost_per_fct_by_size calculateDataGas (3 # 2)
            calculateDataGas_positive calculateDataGas_monotone
            {| baseFeePerGas := Some (10 ^ 10); fctMintRate := 100000 |}
            25 100 3000 (10 ^ 10) _ _ _ _ _ _).
  - reflexivity.
  - reflexivity.
  - reflexivity.
  - discriminate.
  - discriminate.
  - vm_compute. discriminate.
Defined.

End CostRuns.

(** ** Ranker: which candidate comes back *)

Section RankerChoice.

Import Miner.

Variable calculateInputGasCost : list byte -> Z.
Variable gasPriceMultiplier : Q.
Variables AUTO_MIN_SIZE_KB AUTO_MAX_SIZE_KB : Z.

Let candidates := candidateSizes AUTO_MIN_SIZE_KB AUTO_MAX_SIZE_KB.
Let estimatesOf :=
  candidateEstimates calculateInputGasCost gasPriceMultiplier
    AUTO_MIN_SIZE_KB AUTO_MAX_SIZE_KB.
Let pick :=
  pickBestSizeAndEstimates calculateInputGasCost gasPriceMultiplier
    AUTO_MIN_SIZE_KB AUTO_MAX_SIZE_KB.

Lemma rankStep_some (opts : RankOpts) (b e : SizeEstimate) :
  rankStep opts (Some b) e
  = if JS.ltb (costPerFctUsd e) (costPerFctUsd b) then Some e else Some b.
Proof. unfold rankStep. destruct (meetsCost opts e && meetsEff opts e); reflexivity. Qed.

Lemma rankStep_none (opts : RankOpts) (e : SizeEstimate) :
  rankStep opts None e = Some e.
Proof. unfold rankStep. destruct (meetsCost opts e && meetsEff opts e); reflexivity. Qed.

(** From a current best [b], the loop ends on [b] when nothing later is
    strictly cheaper, and otherwise on the first of the cheapest later
    candidates. *)
Lemma fold_rank_first_cheapest (opts : RankOpts) (ests : list SizeEstimate) :
  forall b,
  exists r,
    fold_left (rankStep opts) ests (Some b) = Some r /\
    ((r = b /\ forall e, In e ests -> (costPerFctUsd b <= costPerFctUsd e)%Q) \/
     (exists pre post,
         ests = pre ++ r :: post /\
         (costPerFctUsd r < costPerFctUsd b)%Q /\
         (forall e, In e pre -> (costPerFctUsd r < costPerFctUsd e)%Q) /\
         (forall e, In e post -> (costPerFctUsd r <= costPerFctUsd e)%Q))).
Proof.
  induction ests as [| e ests IH]; intros b; cbn [fold_left].
  - exists b. split; [reflexivity |]. left. split; [reflexivity | intros e []].
  - rewrite rankStep_some.
    destruct (JS.ltb (costPerFctUsd e) (costPerFctUsd b)) eqn:Hlt.
    + apply ltb_lt in Hlt.
      destruct (IH e) as (r & Hr & [[-> Hall] | (pre & post & -> & Hre & Hpre & Hpost)]).
      * exists e. split; [exact Hr |]. right. exists [], ests.
        split; [reflexivity |]. split; [exact Hlt |].
        split; [intros x [] | exact Hall].
      * exists r. split; [exact Hr |]. right. exists (e :: pre), post.
        split; [reflexivity |].
        split; [now apply Qlt_trans with (costPerFctUsd e) |].
        split; [| exact Hpost].
        intros x [<- | Hx]; [exact Hre | now apply Hpre].
    + assert (Hbe : (costPerFctUsd b <= costPerFctUsd e)%Q).
      { apply Qnot_lt_le. intros H. apply ltb_lt in H. congruence. }
      destruct (IH b) as (r & Hr & [[-> Hall] | (pre & post & -> & Hrb & Hpre & Hpost)]).
      * exists b. split; [exact Hr |]. left. split; [reflexivity |].
        intros x [<- | Hx]; [exact Hbe | now apply Hall].
      * exists r. split; [exact Hr |]. right. exists (e :: pre), post.
        split; [reflexivity |]. split; [exact Hrb |]. split; [| exact Hpost].
        intros x [<- | Hx]; [| now apply Hpre].
        now apply Qlt_le_trans with (costPerFctUsd b).
Qed.

Lemma rank_first_cheapest (opts : RankOpts) (ests : list SizeEstimate) (r : SizeEstimate) :
  rank opts ests = Some r ->
  exists pre post,
    ests = pre ++ r :: post /\
    (forall e, In e pre -> (costPerFctUsd r < costPerFctUsd e)%Q) /\
    (forall e, In e post -> (costPerFctUsd r <= costPerFctUsd e)%Q).
Proof.
  unfold rank. destruct ests as [| e0 ests]; cbn [fold_left]; [discriminate |].
  rewrite rankStep_none. intros Hr.
  destruct (fold_rank_first_cheapest opts ests e0)
    as (r' & Hr' & [[-> Hall] | (pre & post & -> & Hlt & Hpre & Hpost)]);
    rewrite Hr' in Hr; injection Hr as <-.
  - exists [], ests. split; [reflexivity |]. split; [intros x [] | exact Hall].
  - exists (e0 :: pre), post. split; [reflexivity |]. split; [| exact Hpost].
    intros x [<- | Hx]; [exact Hlt | now apply Hpre].
Qed.

(** X9. The ranker returns the first candidate of least cost per FCT:
    every candidate before it costs strictly more, every candidate after
    it at least as much, whatever the constraints say. *)
Theorem ranker_returns_first_cheapest (chain : nat -> ChainView) (price : Q)
    (opts : RankOpts) (r : SizeEstimate) :
  pick chain price opts = Some r ->
  exists pre post,
    estimatesOf chain price opts = pre ++ r :: post /\
    (forall e, In e pre -> (costPerFctUsd r < costPerFctUsd e)%Q) /\
    (forall e, In e post -> (costPerFctUsd r <= costPerFctUsd e)%Q).
Proof. apply rank_first_cheapest. Qed.

Lemma candidate_in_range (opts : RankOpts) (k : Z) :
  In k (candidates opts) ->
  let lo := Z.max AUTO_MIN_SIZE_KB
              (match minKb opts with Some v => v | None => AUTO_MIN_SIZE_KB end) in
  let hi := Z.min AUTO_MAX_SIZE_KB
              (match maxKb opts with Some v => v | None => AUTO_MAX_SIZE_KB end) in
  lo <= k <= hi /\ (k - lo) mod 25 = 0.
Proof.
  cbv zeta. unfold candidates, candidateSizes, AUTO_SIZE_STEP_KB.
  set (lo := Z.max _ _). set (hi := Z.min _ _).
  destruct (Z.ltb_spec hi lo) as [Hlt | Hge]; [intros [] |].
  intros Hin. apply in_map_iff in Hin. destruct Hin as (i & <- & Hi).
  apply in_seq in Hi.
  assert (Z.of_nat i <= (hi - lo) / 25).
  { assert (0 <= (hi - lo) / 25) by (apply Z.div_pos; lia). lia. }
  pose proof (Z.mul_div_le (hi - lo) 25 ltac:(lia)).
  split; [lia |].
  replace (lo + 25 * Z.of_nat i - lo) with (Z.of_nat i * 25) by lia.
  apply Z.mod_mul. lia.
Qed.

Lemma estimate_of_candidate (chain : nat -> ChainView) (price : Q) (opts : RankOpts)
    (r : SizeEstimate) :
  In r (estimatesOf chain price opts) -> In (kb r) (candidates opts).
Proof.
  unfold estimatesOf, candidateEstimates. intros Hin.
  apply in_map_iff in Hin. destruct Hin as ([i k] & <- & Hik).
  cbn [kb]. exact (in_combine_r _ _ _ _ Hik).
Qed.

(** X8. The ranker returns nothing exactly when the size range is empty;
    otherwise the size it returns lies between the lower and the upper
    bound in force, a whole number of 25 KB steps above the lower one. *)
Theorem ranker_size_in_range (chain : nat -> ChainView) (price : Q) (opts : RankOpts) :
  let lo := Z.max AUTO_MIN_SIZE_KB
              (match minKb opts with Some v => v | None => AUTO_MIN_SIZE_KB end) in
  let hi := Z.min AUTO_MAX_SIZE_KB
              (match maxKb opts with Some v => v | None => AUTO_MAX_SIZE_KB end) in
  (pick chain price opts = None <-> hi < lo) /\
  (forall r, pick chain price opts = Some r ->
             lo <= kb r <= hi /\ (kb r - lo) mod 25 = 0).
Proof.
  cbv zeta. split.
  - unfold pick, pickBestSizeAndEstimates, rank, candidateEstimates, candidateSizes.
    set (lo := Z.max _ _). set (hi := Z.min _ _).
    destruct (Z.ltb_spec hi lo) as [Hlt | Hge].
    + cbn. split; [intros _; exact Hlt | reflexivity].
    + split; [| lia]. intros Hnone. exfalso.
      replace (Z.to_nat ((hi - lo) / AUTO_SIZE_STEP_KB + 1))
        with (S (Z.to_nat ((hi - lo) / AUTO_SIZE_STEP_KB))) in Hnone.
      2:{ assert (0 <= (hi - lo) / AUTO_SIZE_STEP_KB)
            by (apply Z.div_pos; unfold AUTO_SIZE_STEP_KB; lia). lia. }
      cbn [seq map List.length combine fold_left] in Hnone.
      rewrite rankStep_none in Hnone.
      match type of Hnone with
      | fold_left _ ?l (Some ?b) = None =>
          destruct (fold_rank_first_cheapest opts l b) as (r & Hr & _)
      end.
      rewrite Hr in Hnone. discriminate Hnone.
  - intros r Hr.
    destruct (rank_first_cheapest _ _ _ Hr) as (pre & post & Hests & _).
    apply (candidate_in_range opts (kb r)).
    apply (estimate_of_candidate chain price).
    fold (estimatesOf chain price opts) in Hests. rewrite Hests.
    apply in_or_app. right. now left.
Qed.

End RankerChoice.

Section RankerRuns.

Import Miner Scenario.

Lemma ranker_returns_first_cheapest_witness :
  exists r pre post,
    kb r = 25 /\
    candidateEstimates calculateDataGas (3 # 2) 25 100 rateDrop 3000 efficiencyFloor
    = pre ++ r :: post /\
    (forall e, In e post -> (costPerFctUsd r <= costPerFctUsd e)%Q).
Proof.
  destruct (pickBestSizeAndEstimates calculateDataGas (3 # 2) 25 100 rateDrop 3000
              efficiencyFloor) as [r |] eqn:Hpick.
  - destruct (ranker_returns_first_cheapest calculateDataGas (3 # 2) 25 100 rateDrop 3000
                efficiencyFloor r Hpick) as (pre & post & Hests & _ & Hpost).
    exists r, pre, post. split; [| split; assumption].
    assert (Hkb : option_map kb
                    (pickBestSizeAndEstimates calculateDataGas (3 # 2) 25 100 rateDrop
                       3000 efficiencyFloor) = Some 25) by (vm_compute; reflexivity).
    rewrite Hpick in Hkb. now injection Hkb.
  - exfalso.
    assert (Hkb : option_map kb
                    (pickBestSizeAndEstimates calculateDataGas (3 # 2) 25 100 rateDrop
                       3000 efficiencyFloor) = Some 25) by (vm_compute; reflexivity).
    rewrite Hpick in Hkb. discriminate Hkb.
Defined.

Lemma ranker_size_in_range_witness :
  exists r,
    pickBestSizeAndEstimates calculateDataGas (3 # 2) 25 100 rateDrop 3000
      {| maxCostPerFctUsd := None; minEfficiencyPercent := None;
         minKb := Some 40; maxKb := Some 90 |} = Some r /\
    40 <= kb r <= 90.
Proof.
  destruct (pickBestSizeAndEstimates calculateDataGas (3 # 2) 25 100 rateDrop 3000
              {| maxCostPerFctUsd := None; minEfficiencyPercent := None;
                 minKb := Some 40; maxKb := Some 90 |}) as [r |] eqn:Hpick.
  - exists r. split; [reflexivity |].
    destruct (ranker_size_in_range calculateDataGas (3 # 2) 25 100 rateDrop 3000
                {| maxCostPerFctUsd := None; minEfficiencyPercent := None;
                   minKb := Some 40; maxKb := Some 90 |}) as [_ Hrange].
    apply (Hrange r Hpick).
  - exfalso.
    assert (Hkb : option_map kb
                    (pickBestSizeAndEstimates calculateDataGas (3 # 2) 25 100 rateDrop
                       3000
                       {| maxCostPerFctUsd := None; minEfficiencyPercent := None;
                          minKb := Some 40; maxKb := Some 90 |}) = Some 40)
      by (vm_compute; reflexivity).
    rewrite Hpick in Hkb. discriminate Hkb.
Defined.

End RankerRuns.

(** ** Session loop: totals, budget, termination *)

Section SessionFacts.

Import Miner Totals.

Variable calculateInputGasCost : list byte -> Z.
Variable gasPriceMultiplier : Q.
Variable STOP_ON_TX_FAIL : bool.
Variable w : World.
Variables (spendCap : Z) (dataSize : Z).

Let estimate (read : nat) : Z :=
  estimateTransactionCost calculateInputGasCost gasPriceMultiplier dataSize
    (views w read).
Let loopFrom :=
  miningLoopFrom calculateInputGasCost gasPriceMultiplier STOP_ON_TX_FAIL w
    spendCap dataSize.
Let loop :=
  miningLoop calculateInputGasCost gasPriceMultiplier STOP_ON_TX_FAIL w
    spendCap dataSize.

(** One iteration of the loop, case by case. *)
Lemma loopFrom_step (fuel : nat) (s : Session) :
  let n := S (transactionCount s) in
  let cost := estimate (reads s) in
  let s1 := {| totalSpent := totalSpent s; totalFctMinted := totalFctMinted s;
               transactionCount := n; reads := S (reads s) |} in
  let begun := [ReadEstimate (reads s) cost; StartTransaction cost] in
  loopFrom (S fuel) s =
    if spendCap <=? totalSpent s then stopped s []
    else if spendCap <? totalSpent s + cost
    then stopped s1 [ReadEstimate (reads s) cost]
    else
      match responses w n with
      | GasPriceError =>
          if STOP_ON_TX_FAIL
          then stopped s1 (begun ++ [UpdateStatus failed])
          else after (begun ++ [UpdateStatus failed]) (loopFrom fuel s1)
      | SubmitError =>
          stopped s1 (begun ++ [UpdateStatus submitting;
                                UpdateStatus failed; UpdateStatus failed])
      | ConfirmError =>
          stopped s1 (begun ++ [UpdateStatus submitting; UpdateStatus confirming;
                                UpdateStatus failed; UpdateStatus failed])
      | Confirmed minted =>
          let ethSpent := estimate (S (reads s)) in
          let s2 := {| totalSpent := totalSpent s + ethSpent;
                       totalFctMinted := totalFctMinted s + minted;
                       transactionCount := n; reads := S (S (reads s)) |} in
          let done := begun ++ [UpdateStatus submitting; UpdateStatus confirming;
                                ReadEstimate (S (reads s)) ethSpent;
                                UpdateStatus completed;
                                CompleteTransaction ethSpent minted] in
          if spendCap <? totalSpent s2 + cost then stopped s2 done
          else after done (loopFrom fuel s2)
      end.
Proof. reflexivity. Qed.

Lemma mintedIn_app (xs ys : list Event) :
  mintedIn (xs ++ ys) = mintedIn xs + mintedIn ys.
Proof.
  induction xs as [| e xs IH]; cbn [app mintedIn]; [reflexivity |].
  destruct e; rewrite IH; lia.
Qed.

Lemma completedIn_app (xs ys : list Event) :
  completedIn (xs ++ ys) = completedIn xs + completedIn ys.
Proof.
  induction xs as [| e xs IH]; cbn [app completedIn]; [reflexivity |].
  destruct e; rewrite IH; lia.
Qed.

Lemma totals_from (fuel : nat) :
  forall s,
    let run := loopFrom fuel s in
    totalSpent (final run) = totalSpent s + spentIn (trace run) /\
    totalFctMinted (final run) = totalFctMinted s + mintedIn (trace run) /\
    Z.of_nat (transactionCount (final run))
      >= Z.of_nat (transactionCount s) + completedIn (trace run).
Proof.
  induction fuel as [| fuel IH]; intros s; cbv zeta.
  - cbn. lia.
  - rewrite loopFrom_step. cbv zeta.
    destruct (spendCap <=? totalSpent s); [cbn; lia |].
    destruct (spendCap <? totalSpent s + estimate (reads s)); [cbn; lia |].
    destruct (responses w (S (transactionCount s))).
    + destruct STOP_ON_TX_FAIL; [cbn; lia |].
      match goal with |- context [loopFrom fuel ?s1] => specialize (IH s1) end.
      cbv zeta in IH. destruct IH as (H1 & H2 & H3).
      cbn [after final trace]. rewrite H1, H2.
      rewrite spentIn_app, mintedIn_app, completedIn_app.
      cbn [totalSpent totalFctMinted transactionCount spentIn mintedIn completedIn app]
        in *.
      lia.
    + cbn. lia.
    + cbn. lia.
    + destruct (spendCap <? _); [cbn; lia |].
      match goal with |- context [loopFrom fuel ?s2] => specialize (IH s2) end.
      cbv zeta in IH. destruct IH as (H1 & H2 & H3).
      cbn [after final trace]. rewrite H1, H2.
      rewrite spentIn_app, mintedIn_app, completedIn_app.
      cbn [totalSpent totalFctMinted transactionCount spentIn mintedIn completedIn app]
        in *.
      lia.
Qed.

(** X10. At any point of a session, [totalSpent] is the sum of [ethSpent]
    and [totalFctMinted] the sum of [fctMinted] over the transactions
    completed so far, and [transactionCount] is at least their number:
    failed transactions are counted and cost nothing. *)
Theorem session_totals (fuel : nat) :
  let run := loop fuel in
  totalSpent (final run) = spentIn (trace run) /\
  totalFctMinted (final run) = mintedIn (trace run) /\
  completedIn (trace run) <= Z.of_nat (transactionCount (final run)).
Proof.
  cbv zeta. unfold loop, miningLoop.
  destruct (totals_from fuel
              {| totalSpent := 0; totalFctMinted := 0; transactionCount := 0;
                 reads := 0 |}) as (H1 & H2 & H3).
  fold loopFrom. cbn [totalSpent totalFctMinted transactionCount] in *. lia.
Qed.

(** A transaction completed in a run was started in it, so the check
    does not depend on what was under way before. *)
Lemma spentWithin_from (fuel : nat) (s : Session) (cost : option Z) :
  spentWithin cost (trace (loopFrom fuel s))
  = spentWithin None (trace (loopFrom fuel s)).
Proof.
  destruct fuel as [| fuel]; [reflexivity |].
  rewrite loopFrom_step. cbv zeta.
  destruct (spendCap <=? totalSpent s); [reflexivity |].
  destruct (spendCap <? totalSpent s + estimate (reads s)); [reflexivity |].
  destruct (responses w (S (transactionCount s))).
  - destruct STOP_ON_TX_FAIL; reflexivity.
  - reflexivity.
  - reflexivity.
  - destruct (spendCap <? _); reflexivity.
Qed.

Lemma within_cap_from (fuel : nat) :
  forall s, totalSpent s <= spendCap ->
            spentWithin None (trace (loopFrom fuel s)) = true ->
            totalSpent (final (loopFrom fuel s)) <= spendCap.
Proof.
  induction fuel as [| fuel IH]; intros s Hs; [intros _; exact Hs |].
  rewrite loopFrom_step. cbv zeta.
  destruct (spendCap <=? totalSpent s); [intros _; exact Hs |].
  destruct (Z.ltb_spec spendCap (totalSpent s + estimate (reads s)));
    [intros _; exact Hs |].
  destruct (responses w (S (transactionCount s))).
  - match goal with
    | |- context [loopFrom fuel ?s1] =>
        pose proof (spentWithin_from fuel s1 (Some (estimate (reads s)))) as Hsame;
        specialize (IH s1 Hs)
    end.
    destruct STOP_ON_TX_FAIL; [intros _; exact Hs |].
    cbn [after final trace app spentWithin]. rewrite Hsame. exact IH.
  - intros _. exact Hs.
  - intros _. exact Hs.
  - destruct (spendCap <? _);
      cbn [stopped after final trace app spentWithin totalSpent];
      intros Hin; apply andb_prop in Hin; destruct Hin as [Hle Hrest];
      apply Z.leb_le in Hle.
    + lia.
    + apply IH; [cbn [totalSpent]; lia | exact Hrest].
Qed.

(** X11. If no transaction of a session costs more, when read back after
    its confirmation, than the cost estimated just before its
    submission, the session never spends more than its cap. *)
Theorem session_within_cap (fuel : nat) :
  0 <= spendCap ->
  spentWithin None (trace (loop fuel)) = true ->
  totalSpent (final (loop fuel)) <= spendCap.
Proof.
  intros Hcap Hwithin. unfold loop, miningLoop in Hwithin |- *.
  fold loopFrom in Hwithin |- *.
  apply within_cap_from; [exact Hcap | exact Hwithin].
Qed.

Lemma exits_from (c : Z) :
  0 < c ->
  (forall r, c <= estimate r) ->
  STOP_ON_TX_FAIL = true \/ (forall n, responses w n <> GasPriceError) ->
  forall fuel s,
    spendCap - totalSpent s < c * Z.of_nat (S fuel) ->
    exited (loopFrom (S fuel) s) = true.
Proof.
  intros Hc Hmin Hstop. induction fuel as [| fuel IH]; intros s Hleft.
  - rewrite loopFrom_step. cbv zeta.
    destruct (Z.leb_spec spendCap (totalSpent s)); [reflexivity |].
    pose proof (Hmin (reads s)).
    destruct (Z.ltb_spec spendCap (totalSpent s + estimate (reads s)));
      [reflexivity | lia].
  - rewrite loopFrom_step. cbv zeta.
    destruct (spendCap <=? totalSpent s); [reflexivity |].
    destruct (spendCap <? totalSpent s + estimate (reads s)); [reflexivity |].
    destruct (responses w (S (transactionCount s))) eqn:Hresp.
    + destruct Hstop as [-> | Hnever]; [reflexivity |].
      exfalso. exact (Hnever _ Hresp).
    + reflexivity.
    + reflexivity.
    + destruct (spendCap <? _); [reflexivity |].
      cbn [after exited]. apply IH. cbn [totalSpent].
      pose proof (Hmin (S (reads s))). lia.
Qed.

(** X12. When every cost estimate is at least [c > 0] and either the
    stop-on-failure flag is set or the gas-price read never fails, the
    loop ends of its own accord within [spendCap / c + 1] iterations. *)
Theorem session_terminates (c : Z) :
  0 < c ->
  (forall r, c <= estimate r) ->
  STOP_ON_TX_FAIL = true \/ (forall n, responses w n <> GasPriceError) ->
  exited (loop (S (Z.to_nat (spendCap / c)))) = true.
Proof.
  intros Hc Hmin Hstop. unfold loop, miningLoop. fold loopFrom.
  apply (exits_from c Hc Hmin Hstop). cbn [totalSpent].
  destruct (Z_lt_le_dec spendCap 0) as [Hneg | Hpos].
  - assert (spendCap / c <= 0) by (apply Z.div_le_upper_bound; lia). nia.
  - assert (0 <= spendCap / c) by (apply Z.div_pos; lia).
    pose proof (Z.mul_succ_div_gt spendCap c Hc). lia.
Qed.

Lemma spins_from (fuel : nat) :
  STOP_ON_TX_FAIL = false ->
  (forall n, responses w n = GasPriceError) ->
  forall s,
    totalSpent s < spendCap ->
    (forall r, totalSpent s + estimate r <= spendCap) ->
    let run := loopFrom fuel s in
    exited run = false /\ totalSpent (final run) = totalSpent s /\
    transactionCount (final run) = (transactionCount s + fuel)%nat /\
    spentIn (trace run) = 0.
Proof.
  intros Hflag Hfail. induction fuel as [| fuel IH]; intros s Hrun Hfit; cbv zeta.
  - cbn. repeat split. lia.
  - rewrite loopFrom_step. cbv zeta.
    destruct (Z.leb_spec spendCap (totalSpent s)); [lia |].
    pose proof (Hfit (reads s)).
    destruct (Z.ltb_spec spendCap (totalSpent s + estimate (reads s))); [lia |].
    rewrite Hfail, Hflag.
    match goal with |- context [loopFrom fuel ?s1] => specialize (IH s1 Hrun Hfit) end.
    cbv zeta in IH. destruct IH as (E1 & E2 & E3 & E4).
    cbn [after exited final trace]. rewrite spentIn_app.
    cbn [transactionCount totalSpent] in *. cbn. repeat split; try assumption; lia.
Qed.

(** X13. With the stop-on-failure flag unset, while the gas-price read
    keeps failing the loop never ends: each iteration starts a transaction,
    marks it failed and goes straight to the next, spending nothing. *)
Theorem session_spins_on_thrown_errors (fuel : nat) :
  STOP_ON_TX_FAIL = false ->
  (forall n, responses w n = GasPriceError) ->
  0 < spendCap ->
  (forall r, estimate r <= spendCap) ->
  let run := loop fuel in
  exited run = false /\ totalSpent (final run) = 0 /\
  transactionCount (final run) = fuel.
Proof.
  intros Hflag Hfail Hcap Hfit. cbv zeta. unfold loop, miningLoop. fold loopFrom.
  destruct (spins_from fuel Hflag Hfail
              {| totalSpent := 0; totalFctMinted := 0; transactionCount := 0;
                 reads := 0 |}) as (E1 & E2 & E3 & _).
  - exact Hcap.
  - intros r. cbn [totalSpent]. pose proof (Hfit r). lia.
  - cbn [totalSpent transactionCount] in *. repeat split; try assumption.
Qed.

End SessionFacts.

(** ** Auto controller: relaxation and gates *)

Section RelaxationFacts.

Import Miner Controller.

Variable cfg : AutoConfig.

(** The factor in force: 1 until relaxation starts. *)
Let factorAt (waitCycles : Z) : Q :=
  match relaxFactor cfg waitCycles with
  | Some factor => factor
  | None => 1%Q
  end.

Lemma factor_at_least_one (waitCycles : Z) :
  (0 <= AUTO_RELAX_STEP_PERCENT cfg)%Q -> (1 <= factorAt waitCycles)%Q.
Proof.
  intros Hstep. unfold factorAt, relaxFactor.
  destruct (Z.leb_spec (AUTO_RELAX_AFTER_CYCLES cfg) waitCycles) as [Hw | Hw];
    [| apply Qle_refl].
  assert (0 <= inject_Z (waitCycles - AUTO_RELAX_AFTER_CYCLES cfg + 1))%Q
    by (change 0%Q with (inject_Z 0); rewrite <- Zle_Qle; lia).
  assert (0 <= inject_Z (waitCycles - AUTO_RELAX_AFTER_CYCLES cfg + 1)
               * AUTO_RELAX_STEP_PERCENT cfg)%Q
    by (now apply Qmult_le_0_compat).
  assert (0 <= inject_Z (waitCycles - AUTO_RELAX_AFTER_CYCLES cfg + 1)
               * AUTO_RELAX_STEP_PERCENT cfg / inject_Z 100)%Q
    by (apply Qle_shift_div_l; [reflexivity | lra]).
  lra.
Qed.

Lemma factor_monotone (w1 w2 : Z) :
  (0 <= AUTO_RELAX_STEP_PERCENT cfg)%Q -> w1 <= w2 ->
  (factorAt w1 <= factorAt w2)%Q.
Proof.
  intros Hstep Hw. unfold factorAt at 1. unfold relaxFactor.
  destruct (Z.leb_spec (AUTO_RELAX_AFTER_CYCLES cfg) w1) as [H1 | H1];
    [| now apply factor_at_least_one].
  unfold factorAt, relaxFactor.
  destruct (Z.leb_spec (AUTO_RELAX_AFTER_CYCLES cfg) w2) as [H2 | H2]; [| lia].
  apply Qplus_le_r. apply Qmult_le_compat_r; [| discriminate].
  apply Qmult_le_compat_r; [| exact Hstep].
  rewrite <- Zle_Qle. lia.
Qed.

Lemma relaxMax_factor (waitCycles : Z) (threshold : Q) :
  (relaxMax cfg waitCycles threshold == threshold * factorAt waitCycles)%Q.
Proof.
  unfold relaxMax, factorAt. destruct (relaxFactor cfg waitCycles); [reflexivity | ring].
Qed.

(** X14. A relaxed ceiling (gas price or cost per FCT) is the configured
    one until [AUTO_RELAX_AFTER_CYCLES] cycles have been waited, never
    below it afterwards, and never lower after more waiting. *)
Theorem ceiling_relaxation (w1 w2 : Z) (threshold : Q) :
  (0 <= AUTO_RELAX_STEP_PERCENT cfg)%Q ->
  (0 <= threshold)%Q ->
  w1 <= w2 ->
  (w1 < AUTO_RELAX_AFTER_CYCLES cfg -> relaxMax cfg w1 threshold = threshold) /\
  (threshold <= relaxMax cfg w1 threshold)%Q /\
  (relaxMax cfg w1 threshold <= relaxMax cfg w2 threshold)%Q.
Proof.
  intros Hstep Ht Hw. split; [| split].
  - intros Hbefore. unfold relaxMax, relaxFactor.
    destruct (Z.leb_spec (AUTO_RELAX_AFTER_CYCLES cfg) w1); [lia | reflexivity].
  - rewrite relaxMax_factor. pose proof (factor_at_least_one w1 Hstep). nra.
  - rewrite !relaxMax_factor.
    pose proof (factor_monotone w1 w2 Hstep Hw). nra.
Qed.

(** X15. The efficiency floor in force is the configured one until
    relaxation starts, then the configured one divided by the factor: it
    stays between 0 and the configured floor and never rises with more
    waiting. *)
Theorem floor_relaxation (w1 w2 : Z) (threshold : Q) :
  MIN_EFFICIENCY_PERCENT cfg = Some threshold ->
  (0 <= AUTO_RELAX_STEP_PERCENT cfg)%Q ->
  (0 <= threshold)%Q ->
  w1 <= w2 ->
  exists f1 f2,
    effectiveMinEff cfg w1 = Some f1 /\ effectiveMinEff cfg w2 = Some f2 /\
    (w1 < AUTO_RELAX_AFTER_CYCLES cfg -> f1 = threshold) /\
    (0 <= f2)%Q /\ (f2 <= f1)%Q /\ (f1 <= threshold)%Q.
Proof.
  intros Hmin Hstep Ht Hw.
  assert (Hval : forall w, exists f,
             effectiveMinEff cfg w = Some f /\ (f == threshold / factorAt w)%Q /\
             (w < AUTO_RELAX_AFTER_CYCLES cfg -> f = threshold)).
  { intros w. unfold effectiveMinEff, factorAt, relaxFactor. rewrite Hmin.
    cbn [option_map].
    destruct (Z.leb_spec (AUTO_RELAX_AFTER_CYCLES cfg) w) as [Hrel | Hrel].
    - eexists. split; [reflexivity |]. split; [| lia].
      set (factor := (1 + _ * _ / _)%Q).
      assert (Hf : (1 <= factor)%Q).
      { pose proof (factor_at_least_one w Hstep) as H1.
        unfold factorAt, relaxFactor in H1.
        destruct (Z.leb_spec (AUTO_RELAX_AFTER_CYCLES cfg) w); [exact H1 | lia]. }
      assert (Hq : (0 <= threshold / factor)%Q)
        by (apply Qle_shift_div_l; [lra | lra]).
      destruct (max_cases 0 (threshold / factor)) as [[-> Hle] | [-> _]];
        [| reflexivity].
      apply Qle_antisym; assumption.
    - exists threshold. split; [reflexivity |]. split; [field | reflexivity]. }
  destruct (Hval w1) as (f1 & E1 & V1 & B1).
  destruct (Hval w2) as (f2 & E2 & V2 & _).
  exists f1, f2. split; [exact E1 |]. split; [exact E2 |]. split; [exact B1 |].
  pose proof (factor_at_least_one w1 Hstep) as F1.
  pose proof (factor_at_least_one w2 Hstep) as F2.
  pose proof (factor_monotone w1 w2 Hstep Hw) as F12.
  rewrite V1, V2.
  assert (Q1 : (0 <= threshold / factorAt w1)%Q) by (apply Qle_shift_div_l; lra).
  split; [apply Qle_shift_div_l; lra |]. split.
  - apply Qle_shift_div_r; [lra |].
    apply Qle_trans with (threshold / factorAt w1 * factorAt w1)%Q.
    + apply Qle_lteq. right. field. lra.
    + set (q := (threshold / factorAt w1)%Q) in *. nra.
  - apply Qle_shift_div_r; [lra |]. nra.
Qed.

End RelaxationFacts.

Section ControllerFacts.

Import Miner Controller.

Variable calculateInputGasCost : list byte -> Z.
Variable gasPriceMultiplier : Q.
Variable cfg : AutoConfig.

Let cycle := cycle calculateInputGasCost gasPriceMultiplier cfg.
Let cycleEstimate := cycleEstimate calculateInputGasCost gasPriceMultiplier cfg.
Let controller := controller calculateInputGasCost gasPriceMultiplier cfg.

(** X16. With a positive step, waiting long enough lifts a positive
    ceiling above any bound: gated cycles cannot go on for ever because of
    a gas-price or cost ceiling alone. *)
Theorem ceiling_relaxes_without_bound (threshold bound : Q) :
  (0 < AUTO_RELAX_STEP_PERCENT cfg)%Q ->
  (0 < threshold)%Q ->
  exists w0, forall w, w0 <= w -> (bound <= relaxMax cfg w threshold)%Q.
Proof.
  intros Hstep Ht.
  set (step := AUTO_RELAX_STEP_PERCENT cfg) in *.
  set (x := (inject_Z 100 * bound / (threshold * step))%Q).
  exists (AUTO_RELAX_AFTER_CYCLES cfg + Z.max 0 (Qceiling x)).
  intros w Hw. unfold relaxMax, relaxFactor.
  destruct (Z.leb_spec (AUTO_RELAX_AFTER_CYCLES cfg) w) as [_ | Hlt]; [| lia].
  fold step.
  set (n := w - AUTO_RELAX_AFTER_CYCLES cfg + 1).
  assert (Hn : (x <= inject_Z n)%Q).
  { apply Qle_trans with (inject_Z (Qceiling x)); [apply Qle_ceiling |].
    rewrite <- Zle_Qle. unfold n. lia. }
  assert (Hn0 : (0 <= inject_Z n)%Q).
  { change 0%Q with (inject_Z 0). rewrite <- Zle_Qle. unfold n. lia. }
  assert (Hx : (x * (threshold * step) == inject_Z 100 * bound)%Q).
  { unfold x. field. split; intros H0; lra. }
  assert (Hprod : (inject_Z 100 * bound <= inject_Z n * (threshold * step))%Q).
  { rewrite <- Hx. apply Qmult_le_compat_r; [exact Hn | nra]. }
  assert (Hdiv : (threshold * (1 + inject_Z n * step / inject_Z 100)
                  == threshold + inject_Z n * (threshold * step) / inject_Z 100)%Q)
    by (field; discriminate).
  rewrite Hdiv.
  assert (bound <= inject_Z n * (threshold * step) / inject_Z 100)%Q.
  { apply Qle_shift_div_l; [reflexivity |].
    rewrite Qmult_comm. exact Hprod. }
  lra.
Qed.

(** X17. The mining loop is only started when every enabled gate holds
    with its relaxed threshold: the balance is at least the floor, the gas
    price at most the ceiling, the estimate whose size is mined meets the
    efficiency floor and the cost ceiling, and the cap is the one resolved
    from that estimate. *)
Theorem mined_cycle_passed_gates (waitCycles : Z) (o : CycleReads)
    (spendCap size : Z) :
  cycle waitCycles o = Mined spendCap size ->
  (forall floor, MIN_BALANCE_ETH cfg = Some floor ->
                 (floor <= JS.etherOf (balance o))%Q) /\
  (forall ceiling, effectiveMaxGwei cfg waitCycles = Some ceiling ->
                   (gweiOf (gasPrice o) <= ceiling)%Q) /\
  exists e,
    cycleEstimate waitCycles o = Some e /\
    sizeBytes e = size /\
    determineSpendCap (spend cfg) (balance o) (estimatedEthBurn e) = Some spendCap /\
    meetsEff (relaxedOpts cfg waitCycles) e = true /\
    meetsCost (relaxedOpts cfg waitCycles) e = true.
Proof.
  unfold cycle, Controller.cycle. fold cycleEstimate.
  assert (Hnot : forall a b, JS.ltb a b = false -> (b <= a)%Q).
  { intros a b H. apply Qnot_lt_le. intros Hlt. apply ltb_lt in Hlt. congruence. }
  unfold meetsEff, meetsCost, relaxedOpts.
  cbn [minEfficiencyPercent maxCostPerFctUsd].
  intros H.
  destruct (MIN_BALANCE_ETH cfg) as [floor |];
    [destruct (JS.ltb (JS.etherOf (balance o)) floor) eqn:G1; [discriminate H |] |].
  all: destruct (effectiveMaxGwei cfg waitCycles) as [ceiling |];
     [destruct (JS.ltb ceiling (gweiOf (gasPrice o))) eqn:G2; [discriminate H |] |].
  all: destruct (cycleEstimate waitCycles o) as [e |]; [| discriminate H].
  all: destruct (effectiveMinEff cfg waitCycles) as [f |];
     [destruct (JS.ltb (efficiencyPercent e) f) eqn:G3; [discriminate H |] |].
  all: destruct (effectiveMaxCost cfg waitCycles) as [c |];
     [destruct (JS.ltb c (costPerFctUsd e)) eqn:G4; [discriminate H |] |].
  all: destruct (determineSpendCap (spend cfg) (balance o) (estimatedEthBurn e))
       as [cap |] eqn:Hcap; [| discriminate H].
  all: injection H as <- <-.
  all: split; [intros ? Hf; first [discriminate Hf | injection Hf as <-; now apply Hnot] |].
  all: split; [intros ? Hf; first [discriminate Hf | injection Hf as <-; now apply Hnot] |].
  all: exists e.
  all: split; [reflexivity |].
  all: split; [reflexivity |].
  all: split; [exact Hcap |].
  all: split; first [reflexivity | apply leb_le; now apply Hnot].
Qed.

Lemma controller_entries (reads : nat -> CycleReads) (fuel : nat) :
  forall k w0 i w r,
    nth_error (controller reads fuel k w0) i = Some (w, r) ->
    r = cycle w (reads (k + i)%nat) /\
    (i = O -> w = w0) /\
    (forall w' r',
        nth_error (controller reads fuel k w0) (S i) = Some (w', r') ->
        AUTO_LOOP cfg = true /\
        match r with
        | Gated _ => w' = w + 1
        | NoSpendCap => False
        | Mined _ _ => w' = 0
        end).
Proof.
  induction fuel as [| fuel IH]; intros k w0 i w r Hi.
  - destruct i; discriminate Hi.
  - unfold controller in Hi |- *. cbn [Controller.controller] in Hi |- *.
    fold controller in Hi |- *. fold cycle in Hi |- *.
    destruct i as [| i].
    + cbn [nth_error] in Hi. injection Hi as <- <-.
      split; [now rewrite Nat.add_0_r |]. split; [reflexivity |].
      intros w' r' Hnext. cbn [nth_error] in Hnext.
      destruct (cycle w0 (reads k)).
      * destruct (AUTO_LOOP cfg); [| discriminate Hnext].
        split; [reflexivity |].
        destruct fuel; [discriminate Hnext |].
        destruct (IH (S k) (w0 + 1) O w' r' Hnext) as (_ & Hw & _). now apply Hw.
      * discriminate Hnext.
      * destruct (AUTO_LOOP cfg); [| discriminate Hnext].
        split; [reflexivity |].
        destruct (IH (S k) 0 O w' r' Hnext) as (_ & Hw & _). now apply Hw.
    + cbn [nth_error] in Hi |- *.
      replace (k + S i)%nat with (S k + i)%nat by lia.
      destruct (cycle w0 (reads k)).
      * destruct (AUTO_LOOP cfg); [| destruct i; discriminate Hi].
        destruct (IH (S k) (w0 + 1) i w r Hi) as (Hr & _ & Hnext).
        split; [exact Hr |]. split; [discriminate | exact Hnext].
      * destruct i; discriminate Hi.
      * destruct (AUTO_LOOP cfg); [| destruct i; discriminate Hi].
        destruct (IH (S k) 0 i w r Hi) as (Hr & _ & Hnext).
        split; [exact Hr |]. split; [discriminate | exact Hnext].
Qed.

(** With [AUTO_LOOP] set, only the return at the spend cap keeps a
    cycle from being followed by the next. *)
Lemma controller_continues (reads : nat -> CycleReads) (fuel : nat) :
  AUTO_LOOP cfg = true ->
  forall k w0 i w r,
    nth_error (controller reads fuel k w0) i = Some (w, r) ->
    r <> NoSpendCap ->
    (S i < fuel)%nat ->
    exists w' r', nth_error (controller reads fuel k w0) (S i) = Some (w', r').
Proof.
  intros Hloop. induction fuel as [| fuel IH]; intros k w0 i w r Hi Hr Hfuel.
  - lia.
  - unfold controller in Hi |- *. cbn [Controller.controller] in Hi |- *.
    fold controller in Hi |- *. fold cycle in Hi |- *.
    rewrite Hloop in Hi |- *.
    destruct i as [| i].
    + cbn [nth_error] in Hi |- *. injection Hi as <- <-.
      destruct fuel as [| fuel]; [lia |].
      destruct (cycle w0 (reads k)); [| now elim Hr |];
        unfold controller; cbn [Controller.controller nth_error]; eauto.
    + cbn [nth_error] in Hi |- *.
      destruct (cycle w0 (reads k)).
      * apply (IH (S k) (w0 + 1) i w r Hi Hr). lia.
      * destruct i; discriminate Hi.
      * apply (IH (S k) 0 i w r Hi Hr). lia.
Qed.

(** Over a stretch of gated cycles [waitCycles] goes up by one a cycle. *)
Lemma gated_stretch (reads : nat -> CycleReads) (fuel k : nat) (w0 : Z) (d : nat) :
  forall i w r w' r',
    nth_error (controller reads fuel k w0) i = Some (w, r) ->
    nth_error (controller reads fuel k w0) (i + d) = Some (w', r') ->
    (forall m, (i <= m < i + d)%nat ->
               exists wm g, nth_error (controller reads fuel k w0) m
                            = Some (wm, Gated g)) ->
    w' = w + Z.of_nat d.
Proof.
  induction d as [| d IH]; intros i w r w' r' Hi Hj Hgated.
  - rewrite Nat.add_0_r in Hj. rewrite Hi in Hj. injection Hj as <- _. lia.
  - destruct (Hgated (i + d)%nat ltac:(lia)) as (wm & g & Hm).
    assert (Hwm : wm = w + Z.of_nat d).
    { apply (IH i w r wm (Gated g) Hi Hm). intros m Hrange. apply Hgated. lia. }
    destruct (controller_entries reads fuel k w0 (i + d) wm (Gated g) Hm)
      as (_ & _ & Hstep).
    replace (i + S d)%nat with (S (i + d)) in Hj by lia.
    destruct (Hstep w' r' Hj) as [_ Hw]. lia.
Qed.

(** X18. Without [AUTO_LOOP] the controller runs one cycle.  With it,
    every cycle that does not return at the spend cap is followed by
    another, which waits one cycle more after a gated cycle and starts
    from 0 after a session; so over a stretch of gated cycles
    [waitCycles] counts the cycles of the stretch. *)
Theorem controller_wait_cycles (reads : nat -> CycleReads) (fuel k : nat) (w0 : Z) :
  let run := controller reads fuel k w0 in
  (AUTO_LOOP cfg = false -> List.length run = Nat.min 1 fuel) /\
  (forall i w r,
      nth_error run i = Some (w, r) -> r = cycle w (reads (k + i)%nat)) /\
  (AUTO_LOOP cfg = true ->
   forall i w r,
     nth_error run i = Some (w, r) -> r <> NoSpendCap -> (S i < fuel)%nat ->
     exists r',
       nth_error run (S i)
       = Some (match r with Gated _ => w + 1 | _ => 0 end, r')) /\
  (forall i d w r w' r',
      nth_error run i = Some (w, r) ->
      nth_error run (i + d) = Some (w', r') ->
      (forall m, (i <= m < i + d)%nat ->
                 exists wm g, nth_error run m = Some (wm, Gated g)) ->
      w' = w + Z.of_nat d).
Proof.
  cbv zeta. split; [| split; [| split]].
  - intros Hloop. destruct fuel as [| fuel]; [reflexivity |].
    unfold controller. cbn [Controller.controller]. rewrite Hloop.
    destruct (Controller.cycle _ _ _ _ _); destruct fuel; reflexivity.
  - intros i w r Hi.
    now destruct (controller_entries reads fuel k w0 i w r Hi) as (Hr & _).
  - intros Hloop i w r Hi Hr Hfuel.
    destruct (controller_continues reads fuel Hloop k w0 i w r Hi Hr Hfuel)
      as (w' & r' & Hnext).
    destruct (controller_entries reads fuel k w0 i w r Hi) as (_ & _ & Hstep).
    destruct (Hstep w' r' Hnext) as [_ Hw].
    exists r'. rewrite Hnext. f_equal. f_equal.
    destruct r; [exact Hw | contradiction | exact Hw].
  - intros i d w r w' r'. apply gated_stretch.
Qed.

End ControllerFacts.

Section ManualSession.

Import Miner.

(** X19. The interactive session never starts on an empty wallet, and
    the cap it resolves lies between 0 and the balance, whichever of the
    two spending options is chosen. *)
Theorem session_cap_within_balance (choice : string) (capFloat : option Q)
    (balance cap : Z) :
  0 <= balance ->
  sessionSpendCap choice capFloat balance = Some cap ->
  0 < balance /\ 0 <= cap <= balance.
Proof.
  intros Hb. unfold sessionSpendCap.
  destruct (Z.eqb_spec balance 0) as [-> | Hnz]; [discriminate |].
  destruct (String.eqb choice "1").
  - intros [= <-]. pose proof (spendAll_bounds balance Hb). lia.
  - destruct (String.eqb choice "2"); [| discriminate].
    destruct capFloat as [c |]; [| discriminate].
    destruct (Qle_bool c 0) eqn:Hc; [discriminate |].
    destruct (Z.ltb_spec balance (JS.floor (c * inject_Z (10 ^ 18))));
      [discriminate |].
    intros [= <-]. split; [lia |]. split; [| assumption].
    assert (Hpos : (0 <= c * inject_Z (10 ^ 18))%Q).
    { apply Qmult_le_0_compat; [| discriminate].
      apply Qlt_le_weak, Qnot_le_lt. intros Hle. apply Qle_bool_iff in Hle.
      congruence. }
    exact (Qfloor_resp_le 0 _ Hpos).
Qed.

Lemma session_cap_within_balance_witness :
  0 < 10 ^ 18 /\ 0 <= 25 * 10 ^ 16 <= 10 ^ 18.
Proof.
  apply (session_cap_within_balance "2" (Some (1 # 4)) (10 ^ 18) (25 * 10 ^ 16)).
  - discriminate.
  - reflexivity.
Defined.

End ManualSession.

(** ** Swap quote *)

Section SwapFacts.

Import Swapper.

Variables (amountIn reserveIn reserveOut : Z).
Hypothesis amount_positive : 0 < amountIn.
Hypothesis reserveIn_positive : 0 < reserveIn.
Hypothesis reserveOut_positive : 0 < reserveOut.

Let numerator := amountIn * 997 * reserveOut.
Let denominator := reserveIn * 1000 + amountIn * 997.

(** On mainnet with a pair and the reserves read, the quote's divisions
    are floor divisions on positive operands. *)
Lemma quote_unfolded (p : Pool) :
  isMainnet p = true -> noPair p = false ->
  reserves p = Some (reserveIn, reserveOut) ->
  getSwapQuote p amountIn =
    let amountOut := numerator / denominator in
    let spot := reserveIn * 10 ^ 18 / reserveOut in
    let execution := amountIn * 10 ^ 18 / amountOut in
    if amountOut =? 0 then None
    else if spot =? 0 then None
    else Some {| fctOut := amountOut;
                 priceImpact :=
                   (JS.ofBigInt (Z.quot ((execution - spot) * 10000) spot)
                    / inject_Z 100)%Q;
                 effectivePrice := execution;
                 spotPrice := spot |}.
Proof.
  intros Hnet Hpair Hres.
  unfold getSwapQuote, calculatePriceImpact. rewrite Hnet, Hpair, Hres.
  cbn [negb orb]. cbv zeta.
  fold numerator denominator.
  assert (Hd : 0 < denominator) by (unfold denominator; lia).
  assert (Hn : 0 <= numerator) by (unfold numerator; nia).
  destruct (Z.eqb_spec denominator 0) as [Hz | _]; [lia |].
  destruct (Z.eqb_spec reserveOut 0) as [Hz | _]; [lia |].
  rewrite (Z.quot_div_nonneg numerator denominator Hn Hd).
  rewrite (Z.quot_div_nonneg (reserveIn * 10 ^ 18) reserveOut) by lia.
  assert (Hout : 0 <= numerator / denominator) by (apply Z.div_pos; lia).
  destruct (Z.eqb_spec (numerator / denominator) 0) as [Hz | Hnz]; [reflexivity |].
  rewrite (Z.quot_div_nonneg (amountIn * 10 ^ 18) (numerator / denominator)) by lia.
  destruct (reserveIn * 10 ^ 18 / reserveOut =? 0); [reflexivity |].
  cbv beta iota.
  rewrite (Z.quot_div_nonneg (amountIn * 10 ^ 18) (numerator / denominator)) by lia.
  reflexivity.
Qed.

(** A quote is only given on mainnet, with a pair, from reserves that
    were read. *)
Lemma quote_given (p : Pool) (q : Quote) :
  getSwapQuote p amountIn = Some q ->
  isMainnet p = true /\ noPair p = false /\ exists r, reserves p = Some r.
Proof.
  unfold getSwapQuote.
  destruct (isMainnet p); [| discriminate].
  destruct (noPair p); [discriminate |].
  destruct (reserves p) as [r |]; [| discriminate].
  intros _. split; [reflexivity |]. split; [reflexivity |]. now exists r.
Qed.

(** X23. On positive amount and reserves, a quote that is given pays out
    a positive amount below the pool's reserve, keeps the pair's
    constant-product check with the 0.3% fee, and has an execution price
    at least the spot price: the price impact is never negative. *)
Theorem swap_quote_bounds (p : Pool) (q : Quote) :
  reserves p = Some (reserveIn, reserveOut) ->
  getSwapQuote p amountIn = Some q ->
  0 < fctOut q < reserveOut /\
  reserveIn * 1000 * reserveOut
    <= (reserveIn * 1000 + amountIn * 997) * (reserveOut - fctOut q) /\
  0 < spotPrice q <= effectivePrice q /\
  (0 <= priceImpact q)%Q.
Proof.
  intros Hres Hq.
  destruct (quote_given p q Hq) as (Hnet & Hpair & _).
  rewrite (quote_unfolded p Hnet Hpair Hres) in Hq. revert Hq. cbv zeta.
  assert (Hd : 0 < denominator) by (unfold denominator; lia).
  assert (Hn : 0 <= numerator) by (unfold numerator; nia).
  set (out := numerator / denominator).
  set (spot := reserveIn * 10 ^ 18 / reserveOut).
  set (execution := amountIn * 10 ^ 18 / out).
  assert (Hout0 : 0 <= out) by (apply Z.div_pos; lia).
  assert (Hspot0 : 0 <= spot) by (apply Z.div_pos; lia).
  destruct (Z.eqb_spec out 0) as [| Hout]; [discriminate |].
  destruct (Z.eqb_spec spot 0) as [| Hspot]; [discriminate |].
  intros [= <-]. cbn [fctOut priceImpact effectivePrice spotPrice].
  assert (Hmul : denominator * out <= numerator)
    by (apply Z.mul_div_le; exact Hd).
  assert (Hlt : out < reserveOut).
  { apply Z.div_lt_upper_bound; [exact Hd |]. unfold numerator, denominator. nia. }
  assert (Hspotmul : reserveOut * spot <= reserveIn * 10 ^ 18)
    by (apply Z.mul_div_le; lia).
  assert (Hprice : spot <= execution).
  { apply Z.div_le_lower_bound; [lia |].
    assert (H1 : reserveIn * 1000 * out <= amountIn * 997 * reserveOut).
    { unfold numerator, denominator in Hmul. nia. }
    assert (H2 : (out * spot) * (reserveOut * 1000)
                 <= (amountIn * 10 ^ 18) * (reserveOut * 1000)).
    { apply Z.le_trans with (out * 1000 * (reserveIn * 10 ^ 18)).
      - replace (out * spot * (reserveOut * 1000))
          with (out * 1000 * (reserveOut * spot)) by ring.
        apply Z.mul_le_mono_nonneg_l; [lia | exact Hspotmul].
      - replace (out * 1000 * (reserveIn * 10 ^ 18))
          with (reserveIn * 1000 * out * 10 ^ 18) by ring.
        replace (amountIn * 10 ^ 18 * (reserveOut * 1000))
          with (amountIn * 1000 * reserveOut * 10 ^ 18) by ring.
        apply Z.mul_le_mono_nonneg_r; [lia | nia]. }
    apply Z.mul_le_mono_pos_r in H2; [exact H2 | lia]. }
  split; [lia |]. split.
  - unfold numerator, denominator in Hmul. nia.
  - split; [lia |].
    unfold JS.ofBigInt. apply Qle_shift_div_l; [reflexivity |].
    rewrite Qmult_0_l. change 0%Q with (inject_Z 0). rewrite <- Zle_Qle.
    apply Z.quot_pos; lia.
Qed.

(** X24. [getSwapQuote] returns [null] off mainnet, without a
    configured pair and when the reserves cannot be read; on positive
    amount and reserves it returns [null] in exactly two more cases, both
    a bigint division by zero that is caught: the output rounds down to
    zero, or the spot price does. *)
Theorem swap_quote_null (p : Pool) :
  (reserves p = None \/ reserves p = Some (reserveIn, reserveOut)) ->
  getSwapQuote p amountIn = None <->
  network p <> "mainnet"%string \/
  fctWethPair p = None \/ fctWethPair p = Some ""%string \/
  reserves p = None \/
  amountIn * 997 * reserveOut < reserveIn * 1000 + amountIn * 997 \/
  reserveIn * 10 ^ 18 < reserveOut.
Proof.
  intros Hres.
  assert (Hnet : isMainnet p = true <-> network p = "mainnet"%string)
    by (unfold isMainnet; apply String.eqb_eq).
  assert (Hpair : noPair p = true <->
                  fctWethPair p = None \/ fctWethPair p = Some ""%string).
  { unfold noPair. destruct (fctWethPair p) as [address |].
    - rewrite String.eqb_eq. split.
      + intros ->. now right.
      + intros [H | [= ->]]; [discriminate H | reflexivity].
    - split; [now left | reflexivity]. }
  destruct (isMainnet p) eqn:Enet.
  2:{ unfold getSwapQuote. rewrite Enet. cbn [negb orb].
      split; [intros _ | reflexivity]. left. intros H. apply Hnet in H. discriminate H. }
  destruct (noPair p) eqn:Epair.
  { unfold getSwapQuote. rewrite Enet, Epair. cbn [negb orb].
    split; [intros _ | reflexivity]. right.
    destruct (proj1 Hpair eq_refl) as [H | H]; [now left | right; now left]. }
  assert (Hmain : network p = "mainnet"%string) by now apply Hnet.
  assert (Hsome : ~ (fctWethPair p = None \/ fctWethPair p = Some ""%string)).
  { intros H. apply Hpair in H. discriminate H. }
  destruct Hres as [Hnone | Hread].
  { unfold getSwapQuote. rewrite Enet, Epair, Hnone. cbn [negb orb].
    split; [intros _ | reflexivity]. do 3 right. now left. }
  rewrite (quote_unfolded p Enet Epair Hread). cbv zeta.
  assert (Hd : 0 < denominator) by (unfold denominator; lia).
  assert (Hn : 0 <= numerator) by (unfold numerator; nia).
  assert (Hsmall : forall a b, 0 <= a -> 0 < b -> (a / b = 0 <-> a < b)).
  { intros a b Ha Hb. rewrite Z.div_small_iff by lia. lia. }
  fold numerator denominator.
  destruct (Z.eqb_spec (numerator / denominator) 0) as [Hz | Hnz].
  - split; [intros _ | reflexivity]. do 4 right. left. now apply Hsmall.
  - destruct (Z.eqb_spec (reserveIn * 10 ^ 18 / reserveOut) 0) as [Hs | Hs].
    + split; [intros _ | reflexivity]. do 5 right.
      apply Hsmall; [lia | lia | exact Hs].
    + split; [discriminate |].
      intros [H | [H | [H | [H | [H | H]]]]]; exfalso.
      * now apply H.
      * apply Hsome. now left.
      * apply Hsome. now right.
      * rewrite Hread in H. discriminate H.
      * apply Hnz. now apply Hsmall.
      * apply Hs. apply Hsmall; lia.
Qed.

End SwapFacts.

Section SlippageFacts.

Import Swapper.

(** X25. With a tolerance between 0 and 10000 basis points the minimum
    output sent to the router is the quoted amount less the tolerance,
    rounded down: never negative, never above the quote, and the quote
    itself at tolerance 0. *)
Theorem slippage_floor (quoted slippageBps : Z) :
  0 <= quoted ->
  0 <= slippageBps <= 10000 ->
  let minOut := minOutWithSlippage quoted slippageBps in
  0 <= minOut <= quoted /\
  quoted * (10000 - slippageBps) - 10000 < minOut * 10000
    <= quoted * (10000 - slippageBps) /\
  (slippageBps = 0 -> minOut = quoted).
Proof.
  intros Hq Hb. cbv zeta. unfold minOutWithSlippage.
  rewrite Z.quot_div_nonneg by nia.
  set (x := quoted * (10000 - slippageBps)).
  assert (Hx : 0 <= x) by (unfold x; nia).
  pose proof (Z.mul_div_le x 10000 ltac:(lia)) as Hle.
  pose proof (Z.mul_succ_div_gt x 10000 ltac:(lia)) as Hgt.
  assert (Hpos : 0 <= x / 10000) by (apply Z.div_pos; lia).
  split; [| split].
  - split; [exact Hpos |]. unfold x in *. nia.
  - lia.
  - intros ->. unfold x. rewrite Z.sub_0_r. apply Z.div_mul. lia.
Qed.

End SlippageFacts.

(** ** Dashboard *)

Section DashboardFacts.

Import Miner Totals Dashboard.

(** The average cost shown is the one of the totals shown. *)
Let averaged (st : MiningStats) : Prop :=
  0 < totalFCTMinted st ->
  avgCostPerFCT st =
    Qred (JS.etherOf (totalETHSpent st) * ethPrice st
          / JS.etherOf (totalFCTMinted st)).

Lemma derived_stats_averaged (st : MiningStats) :
  averaged (calculateDerivedStats st).
Proof.
  unfold averaged, calculateDerivedStats.
  destruct (Z.ltb_spec 0 (totalFCTMinted st)) as [Hpos | Hle].
  - intros _. reflexivity.
  - intros Hpos. lia.
Qed.

Lemma derived_stats_fields (st : MiningStats) :
  let st' := calculateDerivedStats st in
  totalTransactions st' = totalTransactions st /\
  totalETHSpent st' = totalETHSpent st /\
  totalFCTMinted st' = totalFCTMinted st /\
  remainingBudget st' = remainingBudget st /\
  sessionTarget st' = sessionTarget st /\
  currentBalance st' = currentBalance st /\
  ethPrice st' = ethPrice st.
Proof.
  cbv zeta. unfold calculateDerivedStats.
  destruct (0 <? totalFCTMinted st); cbn; repeat split; reflexivity.
Qed.

Lemma replay_stats (evs : list Event) :
  forall d,
    averaged (stats d) ->
    let st := stats (replay evs d) in
    totalTransactions st = totalTransactions (stats d) + completedIn evs /\
    totalETHSpent st = totalETHSpent (stats d) + spentIn evs /\
    totalFCTMinted st = totalFCTMinted (stats d) + mintedIn evs /\
    remainingBudget st = remainingBudget (stats d) - spentIn evs /\
    currentBalance st = currentBalance (stats d) - spentIn evs /\
    sessionTarget st = sessionTarget (stats d) /\
    ethPrice st = ethPrice (stats d) /\
    averaged st.
Proof.
  induction evs as [| ev evs IH]; intros d Havg; cbv zeta.
  - cbn. repeat split; try lia; try reflexivity. exact Havg.
  - unfold replay. cbn [fold_left]. fold (replay evs (drive ev d)).
    destruct ev as [r c | c | s | spent minted].
    + cbn [drive]. specialize (IH d Havg). cbv zeta in IH.
      cbn [completedIn spentIn mintedIn]. exact IH.
    + specialize (IH (drive (StartTransaction c) d) Havg). cbv zeta in IH.
      cbn [drive startTransaction stats completedIn spentIn mintedIn] in *. exact IH.
    + assert (Hsame : stats (drive (UpdateStatus s) d) = stats d).
      { cbn [drive]. unfold updateTransaction. destruct (currentTx d); reflexivity. }
      assert (Havg' : averaged (stats (drive (UpdateStatus s) d)))
        by (rewrite Hsame; exact Havg).
      specialize (IH _ Havg'). cbv zeta in IH. rewrite Hsame in IH.
      cbn [completedIn spentIn mintedIn]. exact IH.
    + assert (Havg' : averaged (stats (drive (CompleteTransaction spent minted) d)))
        by apply derived_stats_averaged.
      specialize (IH _ Havg'). cbv zeta in IH.
      destruct IH as (H1 & H2 & H3 & H4 & H5 & H6 & H7 & H8).
      cbn [drive completeTransaction stats] in *.
      match type of H1 with
      | context [calculateDerivedStats ?x] =>
          destruct (derived_stats_fields x) as (F1 & F2 & F3 & F4 & F5 & F6 & F7)
      end.
      rewrite F1 in H1. rewrite F2 in H2. rewrite F3 in H3. rewrite F4 in H4.
      rewrite F6 in H5. rewrite F5 in H6. rewrite F7 in H7.
      cbn [totalTransactions totalETHSpent totalFCTMinted remainingBudget
           sessionTarget currentBalance ethPrice] in *.
      cbn [completedIn spentIn mintedIn].
      repeat split; try lia; try assumption.
Qed.

Variable calculateInputGasCost : list byte -> Z.
Variable gasPriceMultiplier : Q.
Variable STOP_ON_TX_FAIL : bool.
Variable w : World.
Variables (spendCap : Z) (dataSize : Z).

Let loop :=
  miningLoop calculateInputGasCost gasPriceMultiplier STOP_ON_TX_FAIL w
    spendCap dataSize.

(** X26. At any point of a session the dashboard shows the loop's own
    totals: the ETH spent and FCT minted of the loop, a remaining budget of
    the cap less the spending, a balance of the starting balance less the
    spending, a transaction count that leaves out the failed ones, and,
    once FCT has been minted, the average cost of those totals. *)
Theorem dashboard_follows_session (fuel : nat) (startBalance : Z) (price : Q) :
  let run := loop fuel in
  let st := stats (replay (trace run) (create spendCap startBalance price)) in
  totalETHSpent st = totalSpent (final run) /\
  totalFCTMinted st = totalFctMinted (final run) /\
  remainingBudget st = spendCap - totalSpent (final run) /\
  currentBalance st = startBalance - totalSpent (final run) /\
  totalTransactions st <= Z.of_nat (transactionCount (final run)) /\
  (0 < totalFctMinted (final run) ->
   avgCostPerFCT st =
     Qred (JS.etherOf (totalSpent (final run)) * price
           / JS.etherOf (totalFctMinted (final run)))).
Proof.
  cbv zeta. unfold loop, miningLoop.
  destruct (totals_from calculateInputGasCost gasPriceMultiplier STOP_ON_TX_FAIL w
              spendCap dataSize fuel
              {| totalSpent := 0; totalFctMinted := 0; transactionCount := 0;
                 reads := 0 |}) as (T1 & T2 & T3).
  cbn [totalSpent totalFctMinted transactionCount] in T1, T2, T3.
  set (run := miningLoopFrom _ _ _ _ _ _ _ _) in *.
  assert (Hinit : averaged (stats (create spendCap startBalance price)))
    by (intros Hpos; cbn in Hpos; lia).
  destruct (replay_stats (trace run) (create spendCap startBalance price) Hinit)
    as (H1 & H2 & H3 & H4 & H5 & H6 & H7 & H8).
  cbn [create stats totalTransactions totalETHSpent totalFCTMinted remainingBudget
       sessionTarget currentBalance ethPrice] in H1, H2, H3, H4, H5, H6, H7.
  repeat split; try lia.
  intros Hpos. unfold averaged in H8.
  rewrite H2, H3, H7 in H8. rewrite T1, T2. apply H8. lia.
Qed.

End DashboardFacts.

Section ProgressBar.

Import Dashboard.

Lemma etherOf_positive (x : Z) : (0 < JS.etherOf x)%Q <-> 0 < x.
Proof. unfold JS.etherOf, Qlt, Qdiv. cbn. lia. Qed.

Lemma round_bounds (x : Q) (n : Z) :
  (0 <= x)%Q -> (x <= inject_Z n)%Q -> 0 <= round x <= n.
Proof.
  intros H0 Hn. unfold round. split.
  - apply (Qfloor_resp_le 0). lra.
  - assert (Qfloor (x + (1 # 2)) < n + 1); [| lia].
    apply floor_below. rewrite inject_Z_plus. change (inject_Z 1) with 1%Q. lra.
Qed.

(** X27. When nothing negative has been spent the progress bar has
    between 0 and 60 filled cells, the empty cells make up the 60, and the
    percentage lies between 0 and 100; without a positive target the bar is
    empty, and once the spending reaches a positive target it is full. *)
Theorem progress_bar_fits (st : MiningStats) :
  0 <= totalETHSpent st ->
  let '(filled, empty, percentage) := renderProgress st in
  0 <= filled <= 60 /\ 0 <= empty /\ filled + empty = 60 /\
  0 <= percentage <= 100 /\
  (sessionTarget st <= 0 -> filled = 0 /\ percentage = 0) /\
  (0 < sessionTarget st <= totalETHSpent st -> filled = 60 /\ percentage = 100).
Proof.
  intros Hspent. unfold renderProgress. cbv zeta.
  set (spent := JS.etherOf (totalETHSpent st)).
  set (target := JS.etherOf (sessionTarget st)).
  assert (Hs : (0 <= spent)%Q).
  { unfold spent, JS.etherOf. apply Qle_shift_div_l; [reflexivity |].
    rewrite Qmult_0_l. change 0%Q with (inject_Z 0). now rewrite <- Zle_Qle. }
  assert (Htarget : (0 < target)%Q <-> 0 < sessionTarget st)
    by apply etherOf_positive.
  set (progress := if JS.ltb 0 target
                   then (if Qle_bool 1 (spent / target) then 1%Q
                         else (spent / target)%Q)
                   else 0%Q).
  assert (Hp : (0 <= progress <= 1)%Q /\
               (sessionTarget st <= 0 -> progress = 0%Q) /\
               (0 < sessionTarget st <= totalETHSpent st -> progress = 1%Q)).
  { unfold progress. destruct (JS.ltb 0 target) eqn:Hlt.
    - apply ltb_lt in Hlt. pose proof (proj1 Htarget Hlt) as Hpos.
      destruct (Qle_bool 1 (spent / target)) eqn:Hone.
      + split; [split; lra |]. split; [lia | reflexivity].
      + assert (Hbelow : (spent / target < 1)%Q).
        { apply Qnot_le_lt. intros Hle. apply Qle_bool_iff in Hle. congruence. }
        split; [| split]; [| lia |].
        * split; [apply Qle_shift_div_l; lra | lra].
        * intros [_ Hreached]. exfalso.
          apply (Qlt_not_le _ _ Hbelow). apply Qle_shift_div_l; [exact Hlt |].
          rewrite Qmult_1_l. unfold spent, target, JS.etherOf.
          apply Qmult_le_compat_r; [now rewrite <- Zle_Qle | discriminate].
    - split; [split; lra |]. split; [reflexivity |].
      intros [Hpos _]. exfalso.
      apply Htarget in Hpos. apply ltb_lt in Hpos. congruence. }
  destruct Hp as ([Hp0 Hp1] & Hnone & Hfull).
  assert (H60 : 0 <= round (progress * inject_Z 60) <= 60)
    by (apply round_bounds; change (inject_Z 60) with 60%Q; nra).
  assert (H100 : 0 <= round (progress * inject_Z 100) <= 100)
    by (apply round_bounds; change (inject_Z 100) with 100%Q; nra).
  split; [exact H60 |]. split; [lia |]. split; [lia |]. split; [exact H100 |].
  split.
  - intros Hn. rewrite (Hnone Hn). split; reflexivity.
  - intros Hf. rewrite (Hfull Hf). split; reflexivity.
Qed.

End ProgressBar.

(** ** The properties above on concrete runs *)

Section SessionRuns.

Import Miner Scenario Inputs.

Lemma session_within_cap_witness :
  totalSpent
    (final (miningLoop calculateDataGas (3 # 2) false allConfirmed (10 ^ 16) 1024 20))
  <= 10 ^ 16.
Proof.
  apply (session_within_cap calculateDataGas (3 # 2) false allConfirmed (10 ^ 16) 1024 20).
  - discriminate.
  - vm_compute. reflexivity.
Defined.

Lemma session_terminates_witness :
  exited (miningLoop calculateDataGas (3 # 2) true allConfirmed (10 ^ 16) 1024
            (S (Z.to_nat (10 ^ 16 / 833400000000000)))) = true.
Proof.
  apply (session_terminates calculateDataGas (3 # 2) true allConfirmed (10 ^ 16) 1024
           833400000000000).
  - reflexivity.
  - intros r. vm_compute. discriminate.
  - left. reflexivity.
Defined.

Lemma session_spins_on_thrown_errors_witness :
  let run := miningLoop calculateDataGas (3 # 2) false alwaysThrows (10 ^ 16) 1024 5 in
  exited run = false /\ totalSpent (final run) = 0 /\
  transactionCount (final run) = 5%nat.
Proof.
  apply (session_spins_on_thrown_errors calculateDataGas (3 # 2) false alwaysThrows
           (10 ^ 16) 1024 5).
  - reflexivity.
  - intros n. reflexivity.
  - reflexivity.
  - intros r. vm_compute. discriminate.
Defined.

End SessionRuns.

Section ControllerRuns.

Import Miner Controller Scenario Inputs.

Lemma ceiling_relaxation_witness :
  (2 < AUTO_RELAX_AFTER_CYCLES patientConfig -> relaxMax patientConfig 2 20 = 20%Q) /\
  (20 <= relaxMax patientConfig 2 20)%Q /\
  (relaxMax patientConfig 2 20 <= relaxMax patientConfig 5 20)%Q.
Proof.
  apply (ceiling_relaxation patientConfig 2 5 20).
  - discriminate.
  - discriminate.
  - lia.
Defined.

Lemma floor_relaxation_witness :
  exists f1 f2,
    effectiveMinEff patientConfig 2 = Some f1 /\
    effectiveMinEff patientConfig 5 = Some f2 /\
    (2 < AUTO_RELAX_AFTER_CYCLES patientConfig -> f1 = 50%Q) /\
    (0 <= f2)%Q /\ (f2 <= f1)%Q /\ (f1 <= 50)%Q.
Proof.
  apply (floor_relaxation patientConfig 2 5 50).
  - reflexivity.
  - discriminate.
  - discriminate.
  - lia.
Defined.

Lemma ceiling_relaxes_without_bound_witness :
  exists w0, forall w, w0 <= w -> (1000 <= relaxMax patientConfig w 20)%Q.
Proof.
  apply (ceiling_relaxes_without_bound patientConfig 20 1000).
  - reflexivity.
  - reflexivity.
Defined.

Lemma mined_cycle_passed_gates_witness :
  (forall floor, MIN_BALANCE_ETH patientConfig = Some floor ->
                 (floor <= JS.etherOf (balance quietCycle))%Q) /\
  (forall ceiling, effectiveMaxGwei patientConfig 0 = Some ceiling ->
                   (gweiOf (gasPrice quietCycle) <= ceiling)%Q) /\
  exists e,
    cycleEstimate calculateDataGas (3 # 2) patientConfig 0 quietCycle = Some e /\
    sizeBytes e = 1024 /\
    determineSpendCap (spend patientConfig) (balance quietCycle) (estimatedEthBurn e)
      = Some 9167400000000000 /\
    meetsEff (relaxedOpts patientConfig 0) e = true /\
    meetsCost (relaxedOpts patientConfig 0) e = true.
Proof.
  apply (mined_cycle_passed_gates calculateDataGas (3 # 2) patientConfig 0 quietCycle
           9167400000000000 1024).
  vm_compute. reflexivity.
Defined.

Lemma controller_wait_cycles_witness :
  exists r',
    nth_error
      (controller calculateDataGas (3 # 2) patientConfig (fun _ => busyCycle) 20 0 0)
      18
    = Some (0, r').
Proof.
  destruct (controller_wait_cycles calculateDataGas (3 # 2) patientConfig
              (fun _ => busyCycle) 20 0 0) as (_ & _ & Hnext & _).
  apply (Hnext eq_refl 17%nat 17 (Mined 9167400000000000 1024)).
  - vm_compute. reflexivity.
  - discriminate.
  - lia.
Defined.

End ControllerRuns.

Section SwapRuns.

Import Swapper.

Lemma swap_quote_bounds_witness :
  exists q,
    getSwapQuote Inputs.mainnetPool (10 ^ 18) = Some q /\
    0 < fctOut q < 50000 * 10 ^ 18 /\
    100 * 10 ^ 18 * 1000 * (50000 * 10 ^ 18)
      <= (100 * 10 ^ 18 * 1000 + 10 ^ 18 * 997) * (50000 * 10 ^ 18 - fctOut q) /\
    0 < spotPrice q <= effectivePrice q /\
    (0 <= priceImpact q)%Q.
Proof.
  destruct (getSwapQuote Inputs.mainnetPool (10 ^ 18)) as [q |] eqn:Hq.
  - exists q. split; [reflexivity |].
    apply (swap_quote_bounds (10 ^ 18) (100 * 10 ^ 18) (50000 * 10 ^ 18))
      with (p := Inputs.mainnetPool).
    + reflexivity.
    + reflexivity.
    + reflexivity.
    + reflexivity.
    + exact Hq.
  - vm_compute in Hq. discriminate Hq.
Defined.

Lemma swap_quote_null_witness :
  getSwapQuote Inputs.sepoliaPool (10 ^ 18) = None <->
  network Inputs.sepoliaPool <> "mainnet"%string \/
  fctWethPair Inputs.sepoliaPool = None \/
  fctWethPair Inputs.sepoliaPool = Some ""%string \/
  reserves Inputs.sepoliaPool = None \/
  10 ^ 18 * 997 * 1 < 1 * 1000 + 10 ^ 18 * 997 \/
  1 * 10 ^ 18 < 1.
Proof.
  apply (swap_quote_null (10 ^ 18) 1 1).
  - reflexivity.
  - reflexivity.
  - reflexivity.
  - left. reflexivity.
Defined.

Lemma slippage_floor_witness :
  let minOut := minOutWithSlippage 1000000 50 in
  0 <= minOut <= 1000000 /\
  1000000 * (10000 - 50) - 10000 < minOut * 10000 <= 1000000 * (10000 - 50) /\
  (50 = 0 -> minOut = 1000000).
Proof.
  apply (slippage_floor 1000000 50).
  - discriminate.
  - split; discriminate.
Defined.

End SwapRuns.

Section DashboardRuns.

Import Dashboard Inputs.

Lemma progress_bar_fits_witness :
  let '(filled, empty, percentage) := renderProgress halfway in
  0 <= filled <= 60 /\ 0 <= empty /\ filled + empty = 60 /\
  0 <= percentage <= 100 /\
  (sessionTarget halfway <= 0 -> filled = 0 /\ percentage = 0) /\
  (0 < sessionTarget halfway <= totalETHSpent halfway ->
   filled = 60 /\ percentage = 100).
Proof.
  apply (progress_bar_fits halfway). discriminate.
Defined.

End DashboardRuns.
